(** * Autonomous Asset Platform API: handlers over a document store

    A shallow embedding of [src/main.py] and [src/schemas.py].  The handlers
    are functions in a state-and-exception monad over a [World] holding the
    process-wide store handle [db], the environment and the wall clock.
    Documents are ordered field lists, collections are lists of documents in
    insertion order, and the database maps collection names to collections. *)

From Stdlib Require Import ZArith Lia Ascii String.
From stdpp Require Import gmap strings list pretty.

Set Warnings "-register-all".
Local Open Scope Z_scope.
Local Open Scope string_scope.
Local Open Scope list_scope.

(** ** Documents *)

(** The values a stored document can hold.  Numbers are integers: no
    handler below stores or compares a float. *)
Inductive Value : Type :=
| VNull
| VBool (b : bool)
| VInt (n : Z)
| VStr (s : string)
| VTime (t : Z)
| VOid (n : nat)
| VList (items : list Value)
| VDoc (fields : list (string * Value)).

Abbreviation Doc := (list (string * Value)).

Fixpoint value_eqb (a b : Value) {struct a} : bool :=
  match a, b with
  | VNull, VNull => true
  | VBool x, VBool y => Bool.eqb x y
  | VInt x, VInt y => Z.eqb x y
  | VStr x, VStr y => String.eqb x y
  | VTime x, VTime y => Z.eqb x y
  | VOid x, VOid y => Nat.eqb x y
  | VList xs, VList ys =>
      (fix items_eqb (xs ys : list Value) {struct xs} : bool :=
         match xs, ys with
         | [], [] => true
         | x :: xs', y :: ys' => value_eqb x y && items_eqb xs' ys'
         | _, _ => false
         end) xs ys
  | VDoc xs, VDoc ys =>
      (fix fields_eqb (xs ys : Doc) {struct xs} : bool :=
         match xs, ys with
         | [], [] => true
         | (k, x) :: xs', (k', y) :: ys' =>
             String.eqb k k' && value_eqb x y && fields_eqb xs' ys'
         | _, _ => false
         end) xs ys
  | _, _ => false
  end.

(** [d[k]], the first binding of [k]. *)
Fixpoint doc_get (k : string) (d : Doc) : option Value :=
  match d with
  | [] => None
  | (k', v) :: d' => if String.eqb k k' then Some v else doc_get k d'
  end.

(** [d[k] = v]: an existing key keeps its place, a new key goes last. *)
Fixpoint doc_set (k : string) (v : Value) (d : Doc) : Doc :=
  match d with
  | [] => [(k, v)]
  | (k', v') :: d' =>
      if String.eqb k k' then (k, v) :: d' else (k', v') :: doc_set k v d'
  end.

(** The document without the field [k]. *)
Fixpoint doc_del (k : string) (d : Doc) : Doc :=
  match d with
  | [] => []
  | (k', v) :: d' =>
      if String.eqb k k' then doc_del k d' else (k', v) :: doc_del k d'
  end.

(** ** Store queries

    The handlers only use equality filters [{field: value, ...}].  A field
    satisfies [{field: q}] when it equals [q], when it is an array holding
    [q], or when it is missing and [q] is null. *)

Definition field_matches (q : Value) (fv : option Value) : bool :=
  match fv with
  | None => value_eqb q VNull
  | Some (VList items) =>
      value_eqb q (VList items) || existsb (value_eqb q) items
  | Some v => value_eqb q v
  end.

Definition doc_matches (filter : Doc) (d : Doc) : bool :=
  forallb (fun '(k, q) => field_matches q (doc_get k d)) filter.

(** ** The database *)

Record Database : Type := mkDatabase {
  colls : gmap string (list Doc);
  next_oid : nat;
  down : option string
}.

Definition get_coll (name : string) (cs : gmap string (list Doc)) : list Doc :=
  default [] (cs !! name).

(** ** Exceptions and the handler monad *)

Inductive Exn : Type :=
| HTTPException (status_code : Z) (detail : string)
| DriverError (msg : string)
| StoreUnavailable
| IndexError
| ValidationError (model : string).

Inductive Res (A : Type) : Type :=
| Ok (a : A)
| Raise (e : Exn).
Arguments Ok {A} a.
Arguments Raise {A} e.

Record World : Type := mkWorld {
  db : option Database;
  env : gmap string string;
  clock : nat -> Z;
  ticks : nat
}.

Definition M (A : Type) : Type := World -> Res A * World.

Definition ret {A} (a : A) : M A := fun w => (Ok a, w).

Definition raise {A} (e : Exn) : M A := fun w => (Raise e, w).

Definition bind {A B} (m : M A) (k : A -> M B) : M B :=
  fun w =>
    match m w with
    | (Ok a, w') => k a w'
    | (Raise e, w') => (Raise e, w')
    end.

Definition try_except {A} (m : M A) (handler : Exn -> M A) : M A :=
  fun w =>
    match m w with
    | (Ok a, w') => (Ok a, w')
    | (Raise e, w') => handler e w'
    end.

Declare Scope handler_scope.
Delimit Scope handler_scope with handler.
Notation "x <- m ;; k" := (bind m (fun x => k))
  (at level 100, m at next level, right associativity) : handler_scope.
Notation "m ;;; k" := (bind m (fun _ => k))
  (at level 100, right associativity) : handler_scope.
Local Open Scope handler_scope.

(** [str(e)] *)
Definition str_exn (e : Exn) : string :=
  match e with
  | HTTPException code detail => pretty code +:+ ": " +:+ detail
  | DriverError msg => msg
  | StoreUnavailable => "Database not available"
  | IndexError => "list index out of range"
  | ValidationError model => "1 validation error for " +:+ model
  end.

(** [datetime.now(timezone.utc)]: the next reading of the wall clock. *)
Definition _now : M Z :=
  fun w => (Ok (clock w (ticks w)),
            mkWorld (db w) (env w) (clock w) (S (ticks w))).

(** ** Driver operations

    [driver f] runs [f] on the connected database; it raises the driver's
    error when the server is down.  A collection handle only exists when
    [db] is set, so the [None] branch is never reached from a handler. *)

Definition driver {A} (f : Database -> A * Database) : M A :=
  fun w =>
    match db w with
    | None => (Raise (DriverError "no connection"), w)
    | Some d =>
        match down d with
        | Some msg => (Raise (DriverError msg), w)
        | None =>
            let '(a, d') := f d in
            (Ok a, mkWorld (Some d') (env w) (clock w) (ticks w))
        end
    end.

Inductive Collection : Type := Coll (name : string).

(** [insert_one]: a document without [_id] gets a fresh one; the document
    goes last in the collection, which is created when missing.  Integers
    are stored as given: the driver's refusal of integers beyond eight
    bytes is not modelled, so a statement that a write succeeds speaks of
    documents whose integers fit. *)
Definition with_id (oid : nat) (doc : Doc) : Doc :=
  match doc_get "_id" doc with
  | Some _ => doc
  | None => ("_id", VOid oid) :: doc
  end.

Definition inserted_id (oid : nat) (doc : Doc) : Value :=
  match doc_get "_id" doc with
  | Some v => v
  | None => VOid oid
  end.

Definition insert_one (col : Collection) (doc : Doc) : M Value :=
  let 'Coll name := col in
  driver (fun d =>
    (inserted_id (next_oid d) doc,
     mkDatabase
       (<[name := get_coll name (colls d) ++ [with_id (next_oid d) doc]]> (colls d))
       (S (next_oid d)) (down d))).

(** [delete_many]: every matching document goes; a missing collection is
    not created. *)
Definition delete_many (col : Collection) (filter : Doc) : M unit :=
  let 'Coll name := col in
  driver (fun d =>
    (tt,
     match colls d !! name with
     | None => d
     | Some docs =>
         mkDatabase
           (<[name := List.filter (fun x => negb (doc_matches filter x)) docs]> (colls d))
           (next_oid d) (down d)
     end)).

(** [list(col.find(filter).limit(n))] *)
Definition find_limit (col : Collection) (filter : Doc) (n : nat) : M (list Doc) :=
  let 'Coll name := col in
  driver (fun d =>
    (take n (List.filter (doc_matches filter) (get_coll name (colls d))), d)).

(** [find_one(filter, {"_id": 0})]: the first match without its [_id]. *)
Definition find_one_no_id (col : Collection) (filter : Doc) : M (option Doc) :=
  let 'Coll name := col in
  driver (fun d =>
    (doc_del "_id" <$> head (List.filter (doc_matches filter) (get_coll name (colls d))), d)).

(** [update_one(filter, {"$set": sets}, upsert=True)]: the first match gets
    the fields of [sets]; with no match a document made of the filter's
    fields and of [sets] is inserted. *)
Definition apply_set (sets : Doc) (d : Doc) : Doc :=
  fold_left (fun acc '(k, v) => doc_set k v acc) sets d.

Fixpoint update_first (filter sets : Doc) (docs : list Doc) : option (list Doc) :=
  match docs with
  | [] => None
  | x :: docs' =>
      if doc_matches filter x then Some (apply_set sets x :: docs')
      else cons x <$> update_first filter sets docs'
  end.

Definition update_one_upsert (col : Collection) (filter sets : Doc) : M unit :=
  let 'Coll name := col in
  driver (fun d =>
    (tt,
     match update_first filter sets (get_coll name (colls d)) with
     | Some docs' =>
         mkDatabase (<[name := docs']> (colls d)) (next_oid d) (down d)
     | None =>
         mkDatabase
           (<[name := get_coll name (colls d)
                      ++ [with_id (next_oid d) (apply_set sets filter)]]> (colls d))
           (S (next_oid d)) (down d)
     end)).

(** [db.list_collection_names()] *)
Definition list_collection_names : M (list string) :=
  driver (fun d => ((map_to_list (colls d)).*1, d)).

(** ** Schemas ([src/schemas.py])

    One module per model; [model_dump] lists the fields in declaration
    order.  A record a handler receives stands for the validated object the
    framework passes to it; a model a handler builds itself is validated
    when it is built ([new]). *)

Fixpoint has_char (c : ascii) (s : string) : bool :=
  match s with
  | EmptyString => false
  | String x s' => Ascii.eqb x c || has_char c s'
  end.

(** What follows the first [c] of [s]. *)
Fixpoint after_char (c : ascii) (s : string) : option string :=
  match s with
  | EmptyString => None
  | String x s' => if Ascii.eqb x c then Some s' else after_char c s'
  end.

(** What every address accepted as [EmailStr] has: a non-empty local part,
    a single [@], and a period in the domain.  The validator checks more
    (characters, lengths, reserved names); an address that fails here is
    refused. *)
Definition EmailStr_shape (s : string) : bool :=
  match s with
  | EmptyString => false
  | String x _ => negb (Ascii.eqb x "@")
  end
  && match after_char "@" s with
     | Some domain => negb (has_char "@" domain) && has_char "." domain
     | None => false
     end.

Definition opt_str (o : option string) : Value :=
  match o with
  | Some s => VStr s
  | None => VNull
  end.

Module User.
Record t : Type := mk {
  name : string;
  email : string;
  role : string;
  avatar_url : option string;
  settings : Doc;
  is_active : bool
}.
Definition model_dump (u : t) : Doc :=
  [("name", VStr (name u)); ("email", VStr (email u)); ("role", VStr (role u));
   ("avatar_url", opt_str (avatar_url u)); ("settings", VDoc (settings u));
   ("is_active", VBool (is_active u))].
(** [User(name=..., email=..., ...)]: the [email] field is an [EmailStr]. *)
Definition new (name email role : string) (avatar_url : option string)
    (settings : Doc) (is_active : bool) : M t :=
  if EmailStr_shape email
  then ret (mk name email role avatar_url settings is_active)
  else raise (ValidationError "User").
End User.

Module Role.
Record t : Type := mk {
  name : string;
  permissions : list string
}.
Definition model_dump (r : t) : Doc :=
  [("name", VStr (name r)); ("permissions", VList (VStr <$> permissions r))].
End Role.

Module Strategy.
Record t : Type := mk {
  name : string;
  params : Doc
}.
Definition model_dump (s : t) : Doc :=
  [("name", VStr (name s)); ("params", VDoc (params s))].
End Strategy.

Module Video.
Record t : Type := mk {
  title : string;
  script : option string;
  status : string;
  metadata : Doc
}.
Definition model_dump (v : t) : Doc :=
  [("title", VStr (title v)); ("script", opt_str (script v));
   ("status", VStr (status v)); ("metadata", VDoc (metadata v))].
End Video.

Module Job.
Record t : Type := mk {
  kind : string;
  status : string;
  payload : Doc;
  owner_email : option string
}.
Definition model_dump (j : t) : Doc :=
  [("kind", VStr (kind j)); ("status", VStr (status j));
   ("payload", VDoc (payload j)); ("owner_email", opt_str (owner_email j))].
End Job.

Module Audit.
Record t : Type := mk {
  action : string;
  actor : option string;
  severity : string;
  details : Doc
}.
Definition model_dump (a : t) : Doc :=
  [("action", VStr (action a)); ("actor", opt_str (actor a));
   ("severity", VStr (severity a)); ("details", VDoc (details a))].
End Audit.

Module ContactMessage.
Record t : Type := mk {
  name : string;
  email : string;
  message : string
}.
Definition model_dump (m : t) : Doc :=
  [("name", VStr (name m)); ("email", VStr (email m));
   ("message", VStr (message m))].
End ContactMessage.

(** ** The store adapter *)

Definition str_id (v : Value) : string :=
  match v with
  | VOid n => pretty n
  | VStr s => s
  | _ => ""
  end.

(** Modelled from the spec: [create_document] of the store adapter, whose
    module [database.py] is not among the sources.  Spec 4.1: "create(collection,
    record) -> id", a single-document insert, which "surfaces a
    service-unavailable condition if the store handle is absent"; spec 3:
    "every record gets a server-assigned identifier and implicit insertion
    timestamp on creation".  The timestamp is kept in the field
    [created_at]. *)
Definition create_document (collection_name : string) (data : Doc) : M string :=
  fun w =>
    match db w with
    | None => (Raise StoreUnavailable, w)
    | Some _ =>
        (ts <- _now;;
         oid <- insert_one (Coll collection_name) (doc_set "created_at" (VTime ts) data);;
         ret (str_id oid)) w
    end.

(** ** Utility ([src/main.py]) *)

Definition _collection (name : string) : M Collection :=
  fun w =>
    match db w with
    | None => (Raise (HTTPException 500 "Database not configured"), w)
    | Some _ => (Ok (Coll name), w)
    end.

(** [bool(os.getenv(k))] *)
Definition getenv_bool (k : string) : M bool :=
  fun w =>
    (Ok (match env w !! k with
         | Some s => negb (String.eqb s "")
         | None => false
         end), w).

(** [s[:n]] *)
Definition str_take (n : nat) (s : string) : string := String.substring 0 n s.

(** [sep.join(parts)] *)
Fixpoint join (sep : string) (parts : list string) : string :=
  match parts with
  | [] => ""
  | [p] => p
  | p :: rest => p +:+ sep +:+ join sep rest
  end.

Definition newline : string := String "010"%char "".

(** ** Self-heal *)

Definition critical : list string :=
  ["user"; "role"; "product"; "affiliate"; "strategy"; "trade"; "video";
   "job"; "audit"; "contactmessage"].

Definition ensure_filter : Doc := [("_ensure", VBool true)].

(** The loop [for c in critical] of [heal]. *)
Fixpoint ensure_loop (cs : list string) (ensured : list string) : M (list string) :=
  match cs with
  | [] => ret ensured
  | c :: cs' =>
      col <- _collection c;;
      ts <- _now;;
      insert_one col [("_ensure", VBool true); ("ts", VTime ts)];;;
      col' <- _collection c;;
      delete_many col' ensure_filter;;;
      ensure_loop cs' (ensured ++ [c])
  end.

Definition admin_role : Role.t := Role.mk "admin" ["*"].

Definition heal_audit (ensured : list string) : Audit.t :=
  Audit.mk "self_heal" (Some "system") "info"
    [("ensured", VList (VStr <$> ensured))].

Definition heal : M Doc :=
  fun w =>
    match db w with
    | None => (Raise (HTTPException 500 "Database not configured"), w)
    | Some _ =>
        (ensured <- ensure_loop critical [];;
         col <- _collection "role";;
         roles <- find_limit col [("name", VStr "admin")] 1;;
         (match roles with
          | [] => create_document "role" (Role.model_dump admin_role);;; ret tt
          | _ => ret tt
          end);;;
         col <- _collection "user";;
         admins <- find_limit col [("email", VStr "admin@local")] 1;;
         (match admins with
          | [] =>
              user <- User.new "Administrator" "admin@local" "admin" None
                        [("theme", VStr "dark")] true;;
              create_document "user" (User.model_dump user);;; ret tt
          | _ => ret tt
          end);;;
         create_document "audit" (Audit.model_dump (heal_audit ensured));;;
         ret [("status", VStr "ok"); ("ensured", VList (VStr <$> ensured))]) w
    end.

(** ** Users and contact *)

Definition create_user (user : User.t) : M Doc :=
  user_id <- create_document "user" (User.model_dump user);;
  ret [("id", VStr user_id)].

Definition submit_contact (msg : ContactMessage.t) : M Doc :=
  msg_id <- create_document "contactmessage" (ContactMessage.model_dump msg);;
  create_document "audit"
    (Audit.model_dump
       (Audit.mk "contact_submit" (Some (ContactMessage.email msg)) "info"
          [("name", VStr (ContactMessage.name msg))]));;;
  ret [("id", VStr msg_id)].

(** ** Script generation *)

Record ScriptRequest : Type := mkScriptRequest {
  topic : string;
  style : string;
  duration_min : Z
}.

Definition script_outline (req : ScriptRequest) : list string :=
  ["Hook: surprising fact about " +:+ topic req;
   "What you'll learn in " +:+ pretty (duration_min req) +:+ " minutes";
   "Three key ideas";
   "Quick demo";
   "Call to action"].

Definition script_paragraphs (req : ScriptRequest) : list string :=
  ["Welcome! In this " +:+ style req +:+ " video, we'll cover " +:+ topic req
     +:+ " in just " +:+ pretty (duration_min req) +:+ " minutes.";
   "First, let's ground the problem: why " +:+ topic req +:+ " matters.";
   "Then we'll break it down into simple steps you can apply today.";
   "Stick around for a short demo and a quick recap!"].

Definition script_video (req : ScriptRequest) : Video.t :=
  Video.mk (topic req +:+ " in " +:+ pretty (duration_min req) +:+ " minutes")
    (Some (join (newline +:+ newline) (script_paragraphs req))) "draft" [].

Definition generate_script (req : ScriptRequest) : M Doc :=
  let outline := script_outline req in
  let paragraphs := script_paragraphs req in
  let content := join (newline +:+ newline) paragraphs in
  let vid := script_video req in
  video_id <- create_document "video" (Video.model_dump vid);;
  create_document "audit"
    (Audit.model_dump
       (Audit.mk "script_generate" (Some "system") "info"
          [("topic", VStr (topic req))]));;;
  ret [("id", VStr video_id); ("outline", VList (VStr <$> outline));
       ("script", VStr content)].

(** ** Settings *)

Record SettingsUpdate : Type := mkSettingsUpdate {
  su_email : string;
  su_settings : Doc
}.

Definition opt_doc (o : option Doc) : Value :=
  match o with
  | Some d => VDoc d
  | None => VNull
  end.

Definition update_settings (req : SettingsUpdate) : M Doc :=
  col <- _collection "user";;
  now <- _now;;
  update_one_upsert col [("email", VStr (su_email req))]
    [("settings", VDoc (su_settings req)); ("updated_at", VTime now)];;;
  create_document "audit"
    (Audit.model_dump
       (Audit.mk "settings_update" (Some (su_email req)) "info" []));;;
  doc <- find_one_no_id col [("email", VStr (su_email req))];;
  ret [("user", opt_doc doc)].

(** ** Health *)

Definition db_configured : M bool :=
  fun w => (Ok (bool_decide (is_Some (db w))), w).

Section Health.
(** [datetime.isoformat] *)
Variable isoformat : Z -> string.

Definition health : M Doc :=
  now <- _now;;
  has_url <- getenv_bool "DATABASE_URL";;
  has_name <- getenv_bool "DATABASE_NAME";;
  configured <- db_configured;;
  let status : Doc :=
    [("backend", VStr "ok");
     ("time", VStr (isoformat now));
     ("env", VDoc [("DATABASE_URL", VBool has_url);
                   ("DATABASE_NAME", VBool has_name)]);
     ("database", VStr (if configured then "ok" else "error"));
     ("collections", VList [])] in
  if configured then
    try_except
      (names <- list_collection_names;;
       ret (doc_set "collections" (VList (VStr <$> names)) status))
      (fun e =>
         ret (doc_set "database"
                (VStr ("error: " +:+ str_take 80 (str_exn e))) status))
  else ret status.
End Health.

(** ** Backtest (mocked) *)

Record BacktestRequest : Type := mkBacktestRequest {
  symbol : string;
  strategy : Strategy.t;
  days : Z
}.

Definition BacktestRequest_dump (req : BacktestRequest) : Doc :=
  [("symbol", VStr (symbol req));
   ("strategy", VDoc (Strategy.model_dump (strategy req)));
   ("days", VInt (days req))].

Record Point (F : Type) : Type := mkPoint {
  pt_t : string;
  equity : F
}.
Arguments mkPoint {F} _ _.
Arguments pt_t {F} _.
Arguments equity {F} _.

Record Stats (F : Type) : Type := mkStats {
  stats_start : F;
  stats_end : F;
  return_pct : F
}.
Arguments mkStats {F} _ _ _.
Arguments stats_start {F} _.
Arguments stats_end {F} _.
Arguments return_pct {F} _.

Record BacktestResponse (F : Type) : Type := mkBacktestResponse {
  series : list (Point F);
  stats : Stats F
}.
Arguments mkBacktestResponse {F} _ _.
Arguments series {F} _.
Arguments stats {F} _.

(** [max(5, min(365, days))] *)
Definition clamp_days (d : Z) : Z := Z.max 5 (Z.min 365 d).

(** [range(n)] *)
Definition range (n : Z) : list Z := Z.of_nat <$> seq 0 (Z.to_nat n).

(** [timedelta(days=k)], in microseconds. *)
Definition timedelta_days (k : Z) : Z := k * 86400000000.

Section Backtest.
Variable isoformat : Z -> string.

(** Python floats and the operations [backtest] applies to them:
    conversion from [int], [+ - * /], [math.sin], [math.cos] and
    [round(_, 2)].  The only divisor is the first equity value,
    [round(10010.0, 2)], so division is taken as total. *)
Variable F : Type.
Variable F_of_Z : Z -> F.
Variables fadd fsub fmul fdiv : F -> F -> F.
Variables fsin fcos round2 : F -> F.

Definition base : F := F_of_Z 10000.

Definition equity_value (i : Z) : F :=
  let drift := fmul (fsin (fdiv (F_of_Z i) (F_of_Z 6))) (F_of_Z 50) in
  let noise := fmul (fcos (fdiv (F_of_Z i) (F_of_Z 3))) (F_of_Z 10) in
  fadd (fadd (fadd base (F_of_Z (i * 12))) drift) noise.

(** The loop [for i in range(days)] of [backtest]. *)
Fixpoint series_loop (idx : list Z) (days : Z) (series : list (Point F))
  : M (list (Point F)) :=
  match idx with
  | [] => ret series
  | i :: idx' =>
      let value := equity_value i in
      now <- _now;;
      series_loop idx' days
        (series ++ [mkPoint (isoformat (now - timedelta_days (days - i)))
                            (round2 value)])
  end.

Definition backtest (req : BacktestRequest) : M (BacktestResponse F) :=
  let days := clamp_days (days req) in
  series <- series_loop (range days) days [];;
  match head series, last series with
  | Some first, Some final =>
      let stats :=
        mkStats (equity first) (equity final)
          (round2 (fmul (fsub (fdiv (equity final) (equity first)) (F_of_Z 1))
                        (F_of_Z 100))) in
      create_document "job"
        (Job.model_dump
           (Job.mk "backtest" "completed" (BacktestRequest_dump req) None));;;
      ret (mkBacktestResponse series stats)
  | _, _ => raise IndexError
  end.

(** The [i]-th point of the curve of [days] days when the clock was read
    [k] times before the loop: dated [days - i] days before reading
    [k + i]. *)
Definition point_at (days : Z) (clk : nat -> Z) (k i : nat) : Point F :=
  mkPoint (isoformat (clk (k + i)%nat - timedelta_days (days - Z.of_nat i)))
          (round2 (equity_value (Z.of_nat i))).

(** [resp] carries the series and the statistics of a curve of [days]
    days drawn in the world [w]. *)
Definition is_curve_of (days : Z) (w : World) (resp : BacktestResponse F) : Prop :=
  length (series resp) = Z.to_nat days /\
  (forall i, (i < Z.to_nat days)%nat ->
             series resp !! i = Some (point_at days (clock w) (ticks w) i)) /\
  stats_start (stats resp) = round2 (equity_value 0) /\
  stats_end (stats resp) = round2 (equity_value (days - 1)) /\
  return_pct (stats resp)
  = round2 (fmul (fsub (fdiv (round2 (equity_value (days - 1)))
                             (round2 (equity_value 0)))
                       (F_of_Z 1))
                 (F_of_Z 100)).
End Backtest.

(** The request [req] with its day count replaced. *)
Definition with_days (d : Z) (req : BacktestRequest) : BacktestRequest :=
  mkBacktestRequest (symbol req) (strategy req) d.

(** ** Error responses and example worlds *)

(** The response the framework sends for an exception that leaves a
    handler: an [HTTPException] carries its own status and detail, anything
    else is the generic server error. *)
Definition error_response (e : Exn) : Z * string :=
  match e with
  | HTTPException code detail => (code, detail)
  | _ => (500, "Internal Server Error")
  end.

(** [t] occurs in [s]. *)
Definition substring_of (t s : string) : Prop :=
  exists pre post, s = pre +:+ t +:+ post.

Definition fresh_db : Database := mkDatabase ∅ 0 None.

Definition fresh_world : World :=
  mkWorld (Some fresh_db) ∅ (fun k => Z.of_nat k) 0.

Definition unconfigured_world : World :=
  mkWorld None ∅ (fun k => Z.of_nat k) 0.

(** The connected, reachable worlds. *)
Definition up (w : World) : Prop :=
  exists d, db w = Some d /\ down d = None.

(** The documents of a collection as the world has them. *)
Definition docs_of (name : string) (w : World) : list Doc :=
  match db w with
  | Some d => get_coll name (colls d)
  | None => []
  end.

(** The filter and the update of [update_settings]. *)
Definition email_filter (email : string) : Doc := [("email", VStr email)].

Definition settings_sets (req : SettingsUpdate) (now : Z) : Doc :=
  [("settings", VDoc (su_settings req)); ("updated_at", VTime now)].

(** [{**old, **new}]: the key-wise merge of two maps, [new] winning. *)
Definition merge_settings (old new : Doc) : Doc := apply_set new old.

(** A store holding one user, Ann, whose settings have a theme. *)
Definition ann_doc : Doc :=
  ("_id", VOid 0)
  :: User.model_dump
       (User.mk "Ann" "ann@example.org" "user" None [("theme", VStr "dark")] true).

Definition ann_world : World :=
  mkWorld (Some (mkDatabase {["user" := [ann_doc]]} 1 None)) ∅
    (fun k => Z.of_nat k) 0.

(** The documents [heal]'s ensuring step leaves alone. *)
Definition not_marker (d : Doc) : bool := negb (doc_matches ensure_filter d).

(** The collections after the ensuring loop over [cl]. *)
Fixpoint ensure_colls (cl : list string) (cs : gmap string (list Doc))
  : gmap string (list Doc) :=
  match cl with
  | [] => cs
  | c :: cl' => ensure_colls cl' (<[c := List.filter not_marker (get_coll c cs)]> cs)
  end.

Definition admin_role_filter : Doc := [("name", VStr "admin")].

Definition admin_user_filter : Doc := [("email", VStr "admin@local")].

(** How many documents of [l] satisfy [flt]. *)
Definition count_matching (flt : Doc) (l : list Doc) : nat :=
  length (List.filter (doc_matches flt) l).

(** The store after [n] calls of [heal] in sequence, each call served
    whatever the outcome of the one before. *)
Fixpoint heal_calls (n : nat) (w : World) : World :=
  match n with
  | O => w
  | S n' => heal_calls n' (heal w).2
  end.

(** A store in which [POST /api/settings] has been served once for the
    address [admin@local]. *)
Definition admin_settings_world : World :=
  (update_settings (mkSettingsUpdate "admin@local" [("theme", VStr "dark")])
     fresh_world).2.

(** A store whose [product] collection holds a document flagged [_ensure]. *)
Definition flagged_product : Doc :=
  [("_id", VOid 0); ("title", VStr "ebook"); ("_ensure", VBool true)].

Definition flagged_world : World :=
  mkWorld (Some (mkDatabase {["product" := [flagged_product]]} 1 None)) ∅
    (fun k => Z.of_nat k) 0.

(** ** Root and diagnostics ([src/main.py]) *)

Definition read_root : M Doc :=
  ret [("message", VStr "Autonomous Asset Platform Backend")].

(** [test_database]: the response dictionary is updated in place, so the
    handler of the [try] sees it as it was when the exception was raised:
    with [database] already set to ["ok"]. *)
Definition test_database : M Doc :=
  has_url <- getenv_bool "DATABASE_URL";;
  has_name <- getenv_bool "DATABASE_NAME";;
  let response : Doc :=
    [("backend", VStr "ok");
     ("database", VStr "error");
     ("env", VDoc [("DATABASE_URL", VBool has_url);
                   ("DATABASE_NAME", VBool has_name)]);
     ("collections", VList [])] in
  configured <- db_configured;;
  if configured then
    let response := doc_set "database" (VStr "ok") response in
    try_except
      (names <- list_collection_names;;
       ret (doc_set "collections" (VList (VStr <$> names)) response))
      (fun e =>
         ret (doc_set "database"
                (VStr ("error: " +:+ str_take 80 (str_exn e))) response))
  else ret (doc_set "database" (VStr "not_configured") response).

(** The names [list_collection_names] reports for a database. *)
Definition collection_names (d : Database) : list string :=
  (map_to_list (colls d)).*1.

(** A store whose server does not answer. *)
Definition down_world : World :=
  mkWorld (Some (mkDatabase ∅ 0 (Some "connection refused"))) ∅
    (fun k => Z.of_nat k) 0.

(** Whether an environment variable is set to a non-empty string. *)
Definition env_set (k : string) (w : World) : Prop :=
  exists s, env w !! k = Some s /\ s <> "".

(** The document [create_document] stores for [data] when the next
    identifier is [oid] and the clock reads [ts]. *)
Definition stored (oid : nat) (ts : Z) (data : Doc) : Doc :=
  with_id oid (doc_set "created_at" (VTime ts) data).

(** The collections, the next identifier and the clock position after one
    seeding step of [heal]: nothing changes when a match is found. *)
Definition seed_step (name : string) (flt data : Doc) (clk : nat -> Z)
    (st : gmap string (list Doc) * nat * nat) : gmap string (list Doc) * nat * nat :=
  let '(m, n, k) := st in
  match take 1 (List.filter (doc_matches flt) (get_coll name m)) with
  | [] => (<[name := get_coll name m ++ [stored n (clk k) data]]> m, S n, S k)
  | _ => (m, n, k)
  end.

Definition heal_response : Doc :=
  [("status", VStr "ok"); ("ensured", VList (VStr <$> critical))].

(** The outcome of [heal] on a reachable store, with the collections, the
    next identifier and the clock position it leaves. *)
Definition heal_state (clk : nat -> Z) (cs : gmap string (list Doc)) (n k : nat)
  : Res Doc * (gmap string (list Doc) * nat * nat) :=
  let s0 := (ensure_colls critical cs, (n + length critical)%nat, (k + length critical)%nat) in
  let '(m1, n1, k1) :=
    seed_step "role" admin_role_filter (Role.model_dump admin_role) clk s0 in
  match take 1 (List.filter (doc_matches admin_user_filter) (get_coll "user" m1)) with
  | [] => (Raise (ValidationError "User"), (m1, n1, k1))
  | _ =>
      (Ok heal_response,
       (<["audit" := get_coll "audit" m1
                     ++ [stored n1 (clk k1) (Audit.model_dump (heal_audit critical))]]> m1,
        S n1, S k1))
  end.

(** The user collection and the next identifier after the upsert of
    [update_settings]. *)
Definition settings_users (req : SettingsUpdate) (now : Z) (n : nat)
    (users : list Doc) : list Doc * nat :=
  match update_first (email_filter (su_email req)) (settings_sets req now) users with
  | Some users' => (users', n)
  | None =>
      (users ++ [with_id n (apply_set (settings_sets req now)
                              (email_filter (su_email req)))], S n)
  end.

Definition settings_audit (req : SettingsUpdate) : Audit.t :=
  Audit.mk "settings_update" (Some (su_email req)) "info" [].

(** * Properties *)

(** ** Documents *)

Lemma doc_get_set_eq k v d : doc_get k (doc_set k v d) = Some v.
Proof.
  induction d as [|[k' v'] d IH]; simpl.
  - by rewrite String.eqb_refl.
  - destruct (String.eqb k k') eqn:E; simpl; rewrite ?String.eqb_refl, ?E; done.
Qed.

Lemma doc_get_set_ne k k' v d : k <> k' -> doc_get k' (doc_set k v d) = doc_get k' d.
Proof.
  intros Hne. assert (String.eqb k' k = false) as Hf by (by apply String.eqb_neq).
  induction d as [|[k0 v0] d IH]; simpl.
  - by rewrite Hf.
  - destruct (String.eqb k k0) eqn:E; simpl.
    + apply String.eqb_eq in E as <-. by rewrite Hf.
    + by rewrite IH.
Qed.

Lemma doc_get_del_eq k d : doc_get k (doc_del k d) = None.
Proof.
  induction d as [|[k' v'] d IH]; simpl; [done|].
  destruct (String.eqb k k') eqn:E; simpl; rewrite ?E; done.
Qed.

Lemma doc_get_del_ne k k' d : k <> k' -> doc_get k' (doc_del k d) = doc_get k' d.
Proof.
  intros Hne. induction d as [|[k0 v0] d IH]; simpl; [done|].
  destruct (String.eqb k k0) eqn:E; simpl.
  - apply String.eqb_eq in E as <-.
    assert (String.eqb k' k = false) as -> by (by apply String.eqb_neq). done.
  - by rewrite IH.
Qed.

(** ** Strings *)

Lemma string_app_assoc (a b c : string) : (a +:+ b) +:+ c = a +:+ (b +:+ c).
Proof.
  induction a as [|x a IH]; [done|].
  change (String x ((a +:+ b) +:+ c) = String x (a +:+ b +:+ c)).
  by rewrite IH.
Qed.

Lemma substring_of_prefix (t post : string) : substring_of t (t +:+ post).
Proof. by exists "", post. Qed.

(** ** Running the store operations on a reachable store *)

Lemma up_inv w :
  up w ->
  exists cs n e clk k, w = mkWorld (Some (mkDatabase cs n None)) e clk k.
Proof.
  intros (d & Hdb & Hdown). destruct w as [o e clk k], d as [cs n dn].
  simpl in *. subst. by exists cs, n, e, clk, k.
Qed.

Lemma get_coll_insert_eq c l (cs : gmap string (list Doc)) :
  get_coll c (<[c := l]> cs) = l.
Proof. unfold get_coll. by rewrite lookup_insert_eq. Qed.

Lemma get_coll_insert_ne c c' l (cs : gmap string (list Doc)) :
  c <> c' -> get_coll c' (<[c := l]> cs) = get_coll c' cs.
Proof. intros. unfold get_coll. by rewrite lookup_insert_ne. Qed.

Lemma collection_up c d e clk k :
  _collection c (mkWorld (Some d) e clk k) = (Ok (Coll c), mkWorld (Some d) e clk k).
Proof. reflexivity. Qed.

Lemma now_run o e clk k :
  _now (mkWorld o e clk k) = (Ok (clk k), mkWorld o e clk (S k)).
Proof. reflexivity. Qed.

Lemma insert_one_up c doc cs n e clk k :
  insert_one (Coll c) doc (mkWorld (Some (mkDatabase cs n None)) e clk k)
  = (Ok (inserted_id n doc),
     mkWorld (Some (mkDatabase (<[c := get_coll c cs ++ [with_id n doc]]> cs) (S n) None))
       e clk k).
Proof. reflexivity. Qed.

Lemma delete_many_up c flt docs cs n e clk k :
  cs !! c = Some docs ->
  delete_many (Coll c) flt (mkWorld (Some (mkDatabase cs n None)) e clk k)
  = (Ok tt,
     mkWorld
       (Some (mkDatabase
                (<[c := List.filter (fun x => negb (doc_matches flt x)) docs]> cs) n None))
       e clk k).
Proof. intros H. unfold delete_many, driver. cbn [db down colls next_oid]. by rewrite H. Qed.

Lemma find_limit_up c flt m cs n e clk k :
  find_limit (Coll c) flt m (mkWorld (Some (mkDatabase cs n None)) e clk k)
  = (Ok (take m (List.filter (doc_matches flt) (get_coll c cs))),
     mkWorld (Some (mkDatabase cs n None)) e clk k).
Proof. reflexivity. Qed.

Ltac simpl_colls :=
  repeat (rewrite get_coll_insert_eq || rewrite get_coll_insert_ne by done).

Lemma create_document_up c data cs n e clk k :
  create_document c data (mkWorld (Some (mkDatabase cs n None)) e clk k) =
  (Ok (str_id (inserted_id n (doc_set "created_at" (VTime (clk k)) data))),
   mkWorld
     (Some (mkDatabase
              (<[c := get_coll c cs
                      ++ [with_id n (doc_set "created_at" (VTime (clk k)) data)]]> cs)
              (S n) None))
     e clk (S k)).
Proof. reflexivity. Qed.

(** ** Script generation *)

(** C4: on a reachable store [generate_script] returns an outline of exactly
    five entries and a script that opens with its first paragraph, the topic
    occurs in that paragraph, and the video document it stores carries a
    title in which the topic occurs. *)
Theorem generate_script_topic_and_outline (req : ScriptRequest) (w : World) :
  up w ->
  exists resp w' outline content para rest video title,
    generate_script req w = (Ok resp, w') /\
    doc_get "outline" resp = Some (VList (VStr <$> outline)) /\
    length outline = 5%nat /\
    doc_get "script" resp = Some (VStr content) /\
    script_paragraphs req = para :: rest /\
    content = join (newline +:+ newline) (para :: rest) /\
    (exists tail, content = para +:+ tail) /\
    substring_of (topic req) para /\
    last (docs_of "video" w') = Some video /\
    doc_get "title" video = Some (VStr title) /\
    substring_of (topic req) title.
Proof.
  intros Hup. destruct (up_inv w Hup) as (cs & n & e & clk & k & ->).
  unfold generate_script, bind. rewrite !create_document_up.
  eexists _, _, (script_outline req), _, _, _, _, _.
  split; [reflexivity|].
  split; [reflexivity|].
  split; [reflexivity|].
  split; [reflexivity|].
  split; [reflexivity|].
  split; [reflexivity|].
  split.
  { eexists. cbn [join script_paragraphs]. rewrite !string_app_assoc. reflexivity. }
  split.
  { exists ("Welcome! In this " +:+ style req +:+ " video, we'll cover "),
      (" in just " +:+ pretty (duration_min req) +:+ " minutes.").
    by rewrite !string_app_assoc. }
  cbn [docs_of db colls]. simpl_colls. rewrite last_snoc.
  split; [reflexivity|].
  split; [reflexivity|].
  apply substring_of_prefix.
Qed.

Lemma generate_script_topic_and_outline_witness :
  up fresh_world /\
  exists resp w' items title video,
    generate_script (mkScriptRequest "sorting" "educational" 3) fresh_world
      = (Ok resp, w') /\
    doc_get "outline" resp = Some (VList items) /\ length items = 5%nat /\
    last (docs_of "video" w') = Some video /\
    doc_get "title" video = Some (VStr title) /\
    substring_of "sorting" title.
Proof.
  assert (up fresh_world) as Hup by (eexists; split; reflexivity).
  split; [exact Hup|].
  destruct (generate_script_topic_and_outline
              (mkScriptRequest "sorting" "educational" 3) fresh_world Hup)
    as (resp & w' & outline & content & para & rest & video & title
        & Hrun & Hout & Hlen & _ & _ & _ & _ & _ & Hlast & Htitle & Hsub).
  exists resp, w', (VStr <$> outline), title, video.
  rewrite length_fmap. auto 10.
Defined.

(** ** Backtest *)

Section BacktestProps.
Variable isoformat : Z -> string.
Variable F : Type.
Variable F_of_Z : Z -> F.
Variables fadd fsub fmul fdiv : F -> F -> F.
Variables fsin fcos round2 : F -> F.

Local Abbreviation loop := (series_loop isoformat F F_of_Z fadd fmul fdiv fsin fcos round2).
Local Abbreviation backtest' := (backtest isoformat F F_of_Z fadd fsub fmul fdiv fsin fcos round2).
Local Abbreviation curve := (equity_value F F_of_Z fadd fmul fdiv fsin fcos).
Local Abbreviation curve_of :=
  (is_curve_of isoformat F F_of_Z fadd fsub fmul fdiv fsin fcos round2).

Lemma clamp_days_range d : 5 <= clamp_days d <= 365.
Proof. unfold clamp_days. lia. Qed.

Lemma length_range n : length (range n) = Z.to_nat n.
Proof. unfold range. by rewrite length_fmap, length_seq. Qed.

(** The loop reads the clock once per index, never fails, leaves the
    store alone and appends one point per index. *)
Lemma series_loop_run idx days acc w :
  exists pts,
    loop idx days acc w
      = (Ok (acc ++ pts),
         mkWorld (db w) (env w) (clock w) (ticks w + length idx)%nat) /\
    length pts = length idx.
Proof.
  revert acc w. induction idx as [|i idx IH]; intros acc w.
  - exists []. rewrite app_nil_r. destruct w; simpl.
    by rewrite Nat.add_0_r.
  - simpl. unfold bind at 1. simpl.
    destruct (IH (acc ++ [mkPoint (isoformat (clock w (ticks w) - timedelta_days (days - i)))
                            (round2 (equity_value F F_of_Z fadd fmul fdiv fsin fcos i))])
                (mkWorld (db w) (env w) (clock w) (S (ticks w))))
      as (pts & -> & Hlen).
    eexists (_ :: pts). simpl. rewrite <- app_assoc. simpl.
    split; [|by rewrite Hlen].
    do 2 f_equal. lia.
Qed.

(** The outcome of [backtest] depends on the request only through the
    clamped day count. *)
Lemma backtest_result_clamped req1 req2 w :
  clamp_days (days req1) = clamp_days (days req2) ->
  (backtest' req1 w).1 = (backtest' req2 w).1.
Proof.
  intros Heq. unfold backtest, bind. rewrite Heq.
  destruct (series_loop_run (range (clamp_days (days req2)))
              (clamp_days (days req2)) [] w) as (pts & -> & _).
  simpl. destruct (head pts), (last pts); try reflexivity.
  unfold create_document. simpl.
  destruct (db w) as [d|]; [|reflexivity].
  unfold bind, _now, insert_one, driver. simpl.
  destruct (down d); reflexivity.
Qed.

(** The loop, point by point: the [j]-th index is dated from the [j]-th
    clock reading. *)
Lemma series_loop_points idx days acc w :
  loop idx days acc w
  = (Ok (acc ++ imap (fun j i =>
                        mkPoint (isoformat (clock w (ticks w + j)%nat
                                            - timedelta_days (days - i)))
                                (round2 (curve i))) idx),
     mkWorld (db w) (env w) (clock w) (ticks w + length idx)%nat).
Proof.
  revert acc w. induction idx as [|i idx IH]; intros acc w.
  - destruct w; simpl. by rewrite app_nil_r, Nat.add_0_r.
  - cbn [series_loop]. unfold bind at 1. destruct w as [o e clk k].
    rewrite now_run. cbv beta iota zeta. rewrite IH. cbn [db env clock ticks].
    rewrite <- app_assoc. cbn [imap app length].
    rewrite Nat.add_0_r, Nat.add_succ_comm. do 4 f_equal.
    apply imap_ext. intros j x _. cbn. by rewrite Nat.add_succ_r.
Qed.

(** What [backtest] returns, when it returns, is the curve of the clamped
    day count. *)
Lemma backtest_ok_curve req w resp w' :
  backtest' req w = (Ok resp, w') ->
  curve_of (Z.max 5 (Z.min 365 (days req))) w resp.
Proof.
  change (Z.max 5 (Z.min 365 (days req))) with (clamp_days (days req)).
  pose proof (clamp_days_range (days req)) as Hr.
  set (dc := clamp_days (days req)) in *.
  unfold backtest, bind. rewrite series_loop_points. fold dc. cbn [app].
  set (pts := imap _ (range dc)).
  assert (Hlen : length pts = Z.to_nat dc).
  { unfold pts. by rewrite length_imap, length_range. }
  assert (Hpt : forall i, (i < Z.to_nat dc)%nat ->
                  pts !! i = Some (point_at isoformat F F_of_Z fadd fmul fdiv fsin fcos round2
                                     dc (clock w) (ticks w) i)).
  { intros i Hi. unfold pts. rewrite list_lookup_imap. unfold range.
    rewrite list_lookup_fmap, lookup_seq_lt by done. reflexivity. }
  assert (Hhead : head pts = Some (point_at isoformat F F_of_Z fadd fmul fdiv fsin fcos round2
                                     dc (clock w) (ticks w) 0)).
  { rewrite head_lookup. apply Hpt. lia. }
  assert (Hlast : last pts
                  = Some (point_at isoformat F F_of_Z fadd fmul fdiv fsin fcos round2
                            dc (clock w) (ticks w) (pred (Z.to_nat dc)))).
  { rewrite last_lookup, Hlen. apply Hpt. lia. }
  rewrite Hhead, Hlast. clearbody pts.
  destruct (create_document _ _ _) as [[id|e] w2]; intros H; [|discriminate H].
  injection H as <- _. unfold is_curve_of. cbn [series stats stats_start stats_end return_pct
                                                 point_at equity].
  replace (Z.of_nat (pred (Z.to_nat dc))) with (dc - 1) by lia.
  by repeat split.
Qed.


(** C3: on a reachable store [backtest] returns a series with as many
    points as the clamped day count, and [stats.start] and [stats.end] are
    the equity values of its first and of its last point. *)
Theorem backtest_series_and_stats (req : BacktestRequest) (w : World) :
  up w ->
  exists resp w' first final,
    backtest' req w = (Ok resp, w') /\
    length (series resp) = Z.to_nat (Z.max 5 (Z.min 365 (days req))) /\
    head (series resp) = Some first /\
    last (series resp) = Some final /\
    stats_start (stats resp) = equity first /\
    stats_end (stats resp) = equity final.
Proof.
  intros Hup. destruct (up_inv w Hup) as (cs & n & e & clk & k & ->).
  unfold backtest, bind.
  destruct (series_loop_run (range (clamp_days (days req)))
              (clamp_days (days req)) []
              (mkWorld (Some (mkDatabase cs n None)) e clk k))
    as (pts & -> & Hlen).
  rewrite length_range in Hlen. pose proof (clamp_days_range (days req)) as Hr.
  destruct pts as [|p pts]; [simpl in Hlen; lia|].
  destruct (last (p :: pts)) as [q|] eqn:Hlast.
  2: { by apply last_None in Hlast. }
  cbn [app head db env clock ticks]. rewrite Hlast.
  rewrite create_document_up.
  eexists _, _, p, q. split; [reflexivity|]. by cbn.
Qed.
End BacktestProps.

Lemma backtest_series_and_stats_witness :
  up fresh_world /\
  exists resp w',
    backtest pretty Z id Z.add Z.sub Z.mul Z.div id id id
      (mkBacktestRequest "BTCUSDT" (Strategy.mk "momentum" []) 1) fresh_world
      = (Ok resp, w') /\
    length (series resp) = 5%nat.
Proof.
  assert (up fresh_world) as Hup by (eexists; split; reflexivity).
  split; [exact Hup|].
  destruct (backtest_series_and_stats pretty Z id Z.add Z.sub Z.mul Z.div id id id
              (mkBacktestRequest "BTCUSDT" (Strategy.mk "momentum" []) 1)
              fresh_world Hup)
    as (resp & w' & first & final & Hrun & Hlen & _).
  exists resp, w'. split; [exact Hrun|exact Hlen].
Defined.

(** ** Health *)

(** C6: [health] never raises; its [database] field is ["ok"] exactly when
    the store handle is present and listing the collection names succeeds,
    and when the handle is present and the listing raises, the field is
    ["error: "] followed by the first 80 characters of the exception's
    text. *)
Theorem health_database_field (isoformat : Z -> string) (w : World) :
  exists status w',
    health isoformat w = (Ok status, w') /\
    (doc_get "database" status = Some (VStr "ok") <->
     is_Some (db w) /\ exists names w1, list_collection_names w = (Ok names, w1)) /\
    (forall e w1,
        is_Some (db w) ->
        list_collection_names w = (Raise e, w1) ->
        doc_get "database" status
        = Some (VStr ("error: " +:+ str_take 80 (str_exn e)))).
Proof.
  destruct w as [[[cs n [msg|]]|] e clk k].
  - (* handle present, server down: the listing raises *)
    eexists _, _. split; [cbn; reflexivity|]. split.
    + split.
      * intros H. cbv in H. discriminate H.
      * intros (_ & names & w1 & H). discriminate H.
    + intros e' w1 _ H. injection H as <- _. reflexivity.
  - (* handle present, server up *)
    eexists _, _. split; [cbn; reflexivity|]. split.
    + split; [|reflexivity].
      intros _. split; [by eexists|]. eexists _, _. reflexivity.
    + intros e' w1 _ H. discriminate H.
  - (* no handle *)
    eexists _, _. split; [cbn; reflexivity|]. split.
    + split.
      * intros H. discriminate H.
      * intros ([d Hd] & _). discriminate Hd.
    + intros e' w1 [d Hd]. discriminate Hd.
Qed.

(** ** Unconfigured deployments *)

(** C7: without a store handle [heal] and [update_settings] raise the fixed
    [HTTPException(500, "Database not configured")], user creation,
    contact, backtest and script generation raise the adapter's
    store-unavailable condition, none of them depending on the request, and
    [health] returns normally with [database] set to ["error"] and no
    collections. *)
Theorem unconfigured_store_is_fatal_for_writes (w : World) :
  db w = None ->
  heal w = (Raise (HTTPException 500 "Database not configured"), w) /\
  (forall user, create_user user w = (Raise StoreUnavailable, w)) /\
  (forall msg, submit_contact msg w = (Raise StoreUnavailable, w)) /\
  (forall isoformat F F_of_Z fadd fsub fmul fdiv fsin fcos round2 req,
      exists w',
        backtest isoformat F F_of_Z fadd fsub fmul fdiv fsin fcos round2 req w
        = (Raise StoreUnavailable, w') /\ db w' = None) /\
  (forall req, generate_script req w = (Raise StoreUnavailable, w)) /\
  (forall req,
      update_settings req w
      = (Raise (HTTPException 500 "Database not configured"), w)) /\
  error_response (HTTPException 500 "Database not configured")
  = (500, "Database not configured") /\
  error_response StoreUnavailable = (500, "Internal Server Error") /\
  (forall isoformat,
      exists status w',
        health isoformat w = (Ok status, w') /\
        doc_get "database" status = Some (VStr "error") /\
        doc_get "collections" status = Some (VList [])).
Proof.
  intros Hdb. destruct w as [o e clk k]. simpl in Hdb. subst o.
  repeat split; try reflexivity.
  - intros isoformat F F_of_Z fadd fsub fmul fdiv fsin fcos round2 req.
    unfold backtest, bind.
    destruct (series_loop_run isoformat F F_of_Z fadd fmul fdiv fsin fcos round2
                (range (clamp_days (days req))) (clamp_days (days req)) []
                (mkWorld None e clk k))
      as (pts & -> & Hlen).
    rewrite length_range in Hlen. pose proof (clamp_days_range (days req)) as Hr.
    destruct pts as [|p pts]; [simpl in Hlen; lia|].
    destruct (last (p :: pts)) as [q|] eqn:Hlast.
    2: { by apply last_None in Hlast. }
    cbn [app head db env clock ticks]. rewrite Hlast.
    eexists. split; reflexivity.
  - intros isoformat. eexists _, _. split; [cbn; reflexivity|].
    split; reflexivity.
Qed.

Lemma unconfigured_store_is_fatal_for_writes_witness :
  db unconfigured_world = None /\
  heal unconfigured_world
  = (Raise (HTTPException 500 "Database not configured"), unconfigured_world) /\
  update_settings (mkSettingsUpdate "ann@example.org" [("theme", VStr "light")])
    unconfigured_world
  = (Raise (HTTPException 500 "Database not configured"), unconfigured_world).
Proof.
  split; [reflexivity|].
  destruct (unconfigured_store_is_fatal_for_writes unconfigured_world eq_refl)
    as (Hheal & _ & _ & _ & _ & Hset & _).
  split; [exact Hheal|apply Hset].
Defined.

(** ** Settings *)

Lemma update_first_none flt sets l :
  List.filter (doc_matches flt) l = [] -> update_first flt sets l = None.
Proof.
  induction l as [|x l IH]; simpl; [done|].
  destruct (doc_matches flt x); [done|]. intros H. by rewrite IH.
Qed.

Lemma update_first_none_inv flt sets l :
  update_first flt sets l = None -> List.filter (doc_matches flt) l = [].
Proof.
  induction l as [|x l IH]; cbn [update_first List.filter]; [done|].
  destruct (doc_matches flt x); [done|].
  destruct (update_first flt sets l); [done|]. intros _. by apply IH.
Qed.

Lemma update_first_split flt sets pre d post :
  List.filter (doc_matches flt) pre = [] ->
  doc_matches flt d = true ->
  update_first flt sets (pre ++ d :: post) = Some (pre ++ apply_set sets d :: post).
Proof.
  intros Hpre Hd. induction pre as [|x pre IH]; simpl in *.
  - by rewrite Hd.
  - destruct (doc_matches flt x); [done|]. by rewrite IH.
Qed.

Lemma update_first_some flt sets l l' :
  update_first flt sets l = Some l' ->
  exists pre d post,
    l = pre ++ d :: post /\ l' = pre ++ apply_set sets d :: post /\
    List.filter (doc_matches flt) pre = [] /\ doc_matches flt d = true.
Proof.
  revert l'. induction l as [|x l IH]; intros l'; simpl; [done|].
  destruct (doc_matches flt x) eqn:Hx.
  - intros [= <-]. by exists [], x, l.
  - destruct (update_first flt sets l) as [l0|]; [|done].
    intros [= <-]. destruct (IH l0 eq_refl) as (pre & d & post & -> & -> & Hpre & Hd).
    exists (x :: pre), d, post. simpl. by rewrite Hx.
Qed.

Lemma filter_first_match (P : Doc -> bool) pre d post :
  List.filter P pre = [] -> P d = true ->
  List.filter P (pre ++ d :: post) = d :: List.filter P post.
Proof.
  intros Hpre Hd. rewrite List.filter_app, Hpre. simpl. by rewrite Hd.
Qed.

Lemma email_filter_after_set email req now d :
  doc_matches (email_filter email) (apply_set (settings_sets req now) d)
  = doc_matches (email_filter email) d.
Proof.
  unfold doc_matches, email_filter, apply_set, settings_sets. simpl.
  by rewrite !doc_get_set_ne.
Qed.

Lemma update_settings_match req cs n e clk k users' :
  update_first (email_filter (su_email req)) (settings_sets req (clk k))
    (get_coll "user" cs) = Some users' ->
  exists w',
    update_settings req (mkWorld (Some (mkDatabase cs n None)) e clk k)
    = (Ok [("user",
            opt_doc (doc_del "_id"
                       <$> head (List.filter (doc_matches (email_filter (su_email req)))
                                   users')))], w') /\
    up w' /\
    docs_of "user" w' = users'.
Proof.
  intros Hupd. unfold update_settings, bind. cbn [_collection db _now clock ticks env].
  unfold update_one_upsert, driver. cbn [db down next_oid colls].
  fold (email_filter (su_email req)). fold (settings_sets req (clk k)).
  rewrite Hupd. rewrite create_document_up.
  unfold find_one_no_id, driver. cbn [db down next_oid colls ret].
  fold (email_filter (su_email req)). simpl_colls.
  eexists. split; [reflexivity|]. split.
  - eexists. split; reflexivity.
  - cbn [docs_of db colls]. by simpl_colls.
Qed.

Lemma update_settings_insert req cs n e clk k :
  update_first (email_filter (su_email req)) (settings_sets req (clk k))
    (get_coll "user" cs) = None ->
  let users' :=
    get_coll "user" cs
    ++ [with_id n (apply_set (settings_sets req (clk k)) (email_filter (su_email req)))] in
  exists w',
    update_settings req (mkWorld (Some (mkDatabase cs n None)) e clk k)
    = (Ok [("user",
            opt_doc (doc_del "_id"
                       <$> head (List.filter (doc_matches (email_filter (su_email req)))
                                   users')))], w') /\
    up w' /\
    docs_of "user" w' = users'.
Proof.
  intros Hupd users'. unfold update_settings, bind. cbn [_collection db _now clock ticks env].
  unfold update_one_upsert, driver. cbn [db down next_oid colls].
  fold (email_filter (su_email req)). fold (settings_sets req (clk k)).
  rewrite Hupd. rewrite create_document_up.
  unfold find_one_no_id, driver. cbn [db down next_oid colls ret].
  fold (email_filter (su_email req)). simpl_colls.
  eexists. split; [reflexivity|]. split.
  - eexists. split; reflexivity.
  - cbn [docs_of db colls]. by simpl_colls.
Qed.

(** C5, as the code has it: when the first user document matching the
    request email is [d], [update_settings] puts in its place a document
    whose [settings] field is the supplied map (the old map is replaced, not
    merged key by key) and whose [updated_at] is the current time; every
    other field of [d] and every other user document is unchanged. *)
Theorem update_settings_existing_user (req : SettingsUpdate) (w : World)
    (pre post : list Doc) (d : Doc) :
  up w ->
  docs_of "user" w = pre ++ d :: post ->
  List.filter (doc_matches (email_filter (su_email req))) pre = [] ->
  doc_matches (email_filter (su_email req)) d = true ->
  exists resp w' d',
    update_settings req w = (Ok resp, w') /\
    docs_of "user" w' = pre ++ d' :: post /\
    doc_get "settings" d' = Some (VDoc (su_settings req)) /\
    doc_get "updated_at" d' = Some (VTime (clock w (ticks w))) /\
    (forall key, key <> "settings" -> key <> "updated_at" ->
                 doc_get key d' = doc_get key d).
Proof.
  intros Hup Hdocs Hpre Hd.
  destruct (up_inv w Hup) as (cs & n & e & clk & k & ->).
  cbn [docs_of db colls] in Hdocs. cbn [clock ticks].
  pose proof (update_first_split _ (settings_sets req (clk k)) _ _ post Hpre Hd) as Hupd.
  rewrite <- Hdocs in Hupd.
  destruct (update_settings_match req cs n e clk k _ Hupd) as (w' & Hrun & _ & Hdocs').
  eexists _, w', _. split; [exact Hrun|]. split; [exact Hdocs'|].
  unfold apply_set, settings_sets. simpl. split; [|split].
  - rewrite doc_get_set_ne by done. apply doc_get_set_eq.
  - apply doc_get_set_eq.
  - intros key H1 H2. by rewrite !doc_get_set_ne.
Qed.

Lemma update_settings_existing_user_witness :
  up ann_world /\
  exists resp w' d',
    update_settings (mkSettingsUpdate "ann@example.org" [("lang", VStr "en")])
      ann_world = (Ok resp, w') /\
    docs_of "user" w' = [d'] /\
    doc_get "settings" d' = Some (VDoc [("lang", VStr "en")]) /\
    doc_get "name" d' = Some (VStr "Ann") /\
    doc_get "role" d' = Some (VStr "user") /\
    doc_get "is_active" d' = Some (VBool true).
Proof.
  assert (up ann_world) as Hup by (eexists; split; reflexivity).
  split; [exact Hup|].
  destruct (update_settings_existing_user
              (mkSettingsUpdate "ann@example.org" [("lang", VStr "en")])
              ann_world [] [] ann_doc Hup eq_refl eq_refl eq_refl)
    as (resp & w' & d' & Hrun & Hdocs & Hset & _ & Hframe).
  exists resp, w', d'. split; [exact Hrun|]. split; [exact Hdocs|].
  split; [exact Hset|].
  rewrite !Hframe by discriminate. repeat split; reflexivity.
Defined.

(** C5 as stated fails: Ann's settings hold a theme, the request supplies
    only a language, and after the update her settings are the supplied map
    alone; the merged map, which keeps the theme, is not what is stored. *)
Lemma update_settings_merge_counterexample :
  let req := mkSettingsUpdate "ann@example.org" [("lang", VStr "en")] in
  let w' := (update_settings req ann_world).2 in
  docs_of "user" ann_world = [ann_doc] /\
  doc_matches (email_filter "ann@example.org") ann_doc = true /\
  doc_get "settings" ann_doc = Some (VDoc [("theme", VStr "dark")]) /\
  merge_settings [("theme", VStr "dark")] (su_settings req)
  = [("theme", VStr "dark"); ("lang", VStr "en")] /\
  exists d',
    docs_of "user" w' = [d'] /\
    doc_get "settings" d' = Some (VDoc [("lang", VStr "en")]) /\
    doc_get "settings" d'
    <> Some (VDoc (merge_settings [("theme", VStr "dark")] (su_settings req))).
Proof.
  vm_compute. repeat split; try reflexivity.
  eexists. repeat split; try reflexivity. discriminate.
Qed.

Lemma upserted_doc_matches req now n :
  doc_matches (email_filter (su_email req))
    (with_id n (apply_set (settings_sets req now) (email_filter (su_email req))))
  = true.
Proof.
  unfold doc_matches, email_filter, apply_set, settings_sets, with_id. simpl.
  by rewrite String.eqb_refl.
Qed.

(** C8: on a reachable store [update_settings] returns [{"user": doc}]
    where [doc] is the first stored user document matching the request
    email, without its [_id] and with every other field as stored. *)
Theorem update_settings_returns_stored_user (req : SettingsUpdate) (w : World) :
  up w ->
  exists d w',
    update_settings req w = (Ok [("user", VDoc (doc_del "_id" d))], w') /\
    head (List.filter (doc_matches (email_filter (su_email req)))
            (docs_of "user" w')) = Some d /\
    doc_get "_id" (doc_del "_id" d) = None /\
    (forall key, key <> "_id" -> doc_get key (doc_del "_id" d) = doc_get key d).
Proof.
  intros Hup. destruct (up_inv w Hup) as (cs & n & e & clk & k & ->).
  destruct (update_first (email_filter (su_email req)) (settings_sets req (clk k))
              (get_coll "user" cs)) as [users'|] eqn:Hupd.
  - destruct (update_settings_match req cs n e clk k _ Hupd) as (w' & Hrun & _ & Hdocs).
    destruct (update_first_some _ _ _ _ Hupd) as (pre & d & post & _ & -> & Hpre & Hd).
    rewrite filter_first_match in Hrun;
      [|done|by rewrite email_filter_after_set].
    exists (apply_set (settings_sets req (clk k)) d), w'.
    split; [exact Hrun|]. rewrite Hdocs.
    rewrite filter_first_match; [|done|by rewrite email_filter_after_set].
    split; [done|]. split; [apply doc_get_del_eq|].
    intros key Hkey. by apply doc_get_del_ne.
  - destruct (update_settings_insert req cs n e clk k Hupd) as (w' & Hrun & _ & Hdocs).
    pose proof (update_first_none_inv _ _ _ Hupd) as Hnone.
    rewrite List.filter_app, Hnone in Hrun. cbn [List.filter app] in Hrun.
    rewrite upserted_doc_matches in Hrun.
    eexists _, w'. split; [exact Hrun|]. rewrite Hdocs.
    rewrite List.filter_app, Hnone. cbn [List.filter app].
    rewrite upserted_doc_matches.
    split; [done|]. split; [apply doc_get_del_eq|].
    intros key Hkey. by apply doc_get_del_ne.
Qed.

Lemma update_settings_returns_stored_user_witness :
  up ann_world /\
  exists d w',
    update_settings (mkSettingsUpdate "ann@example.org" [("lang", VStr "en")])
      ann_world = (Ok [("user", VDoc (doc_del "_id" d))], w') /\
    head (List.filter (doc_matches (email_filter "ann@example.org"))
            (docs_of "user" w')) = Some d.
Proof.
  assert (up ann_world) as Hup by (eexists; split; reflexivity).
  split; [exact Hup|].
  destruct (update_settings_returns_stored_user
              (mkSettingsUpdate "ann@example.org" [("lang", VStr "en")])
              ann_world Hup)
    as (d & w' & Hrun & Hhead & _).
  exists d, w'. split; [exact Hrun|exact Hhead].
Defined.

(** C9: when no stored user document matches the request email,
    [update_settings] appends to the user collection a document carrying
    that email and the supplied settings, and returns it (without its
    [_id]). *)
Theorem update_settings_upserts_new_user (req : SettingsUpdate) (w : World) :
  up w ->
  List.filter (doc_matches (email_filter (su_email req))) (docs_of "user" w) = [] ->
  exists d w',
    update_settings req w = (Ok [("user", VDoc (doc_del "_id" d))], w') /\
    docs_of "user" w' = docs_of "user" w ++ [d] /\
    d ∈ docs_of "user" w' /\
    doc_get "email" d = Some (VStr (su_email req)) /\
    doc_get "settings" d = Some (VDoc (su_settings req)) /\
    doc_get "email" (doc_del "_id" d) = Some (VStr (su_email req)).
Proof.
  intros Hup Hnone. destruct (up_inv w Hup) as (cs & n & e & clk & k & ->).
  cbn [docs_of db colls] in *.
  pose proof (update_first_none _ (settings_sets req (clk k)) _ Hnone) as Hupd.
  destruct (update_settings_insert req cs n e clk k Hupd) as (w' & Hrun & _ & Hdocs).
  rewrite List.filter_app, Hnone in Hrun. cbn [List.filter app] in Hrun.
  rewrite upserted_doc_matches in Hrun.
  eexists _, w'. split; [exact Hrun|]. rewrite Hdocs.
  split; [reflexivity|]. split; [set_solver|].
  repeat split; reflexivity.
Qed.

Lemma update_settings_upserts_new_user_witness :
  up fresh_world /\
  List.filter (doc_matches (email_filter "bob@example.org"))
    (docs_of "user" fresh_world) = [] /\
  exists d w',
    update_settings (mkSettingsUpdate "bob@example.org" [("theme", VStr "light")])
      fresh_world = (Ok [("user", VDoc (doc_del "_id" d))], w') /\
    docs_of "user" w' = [d] /\
    doc_get "email" d = Some (VStr "bob@example.org").
Proof.
  assert (up fresh_world) as Hup by (eexists; split; reflexivity).
  split; [exact Hup|]. split; [reflexivity|].
  destruct (update_settings_upserts_new_user
              (mkSettingsUpdate "bob@example.org" [("theme", VStr "light")])
              fresh_world Hup eq_refl)
    as (d & w' & Hrun & Hdocs & _ & Hemail & _).
  exists d, w'. split; [exact Hrun|]. split; [exact Hdocs|exact Hemail].
Defined.

(** ** Self-heal: the ensuring loop *)

Ltac in_critical := apply list_elem_of_In; cbn; tauto.

Lemma filter_idem (P : Doc -> bool) l :
  List.filter P (List.filter P l) = List.filter P l.
Proof.
  induction l as [|x l IH]; simpl; [done|].
  destruct (P x) eqn:E; simpl; rewrite ?E, ?IH; done.
Qed.

Lemma filter_all_true (P : Doc -> bool) l :
  Forall (fun x => P x = true) l -> List.filter P l = l.
Proof.
  induction 1 as [|x l Hx _ IH]; simpl; [done|]. by rewrite Hx, IH.
Qed.

Lemma Forall_filter_true (P : Doc -> bool) l :
  Forall (fun x => P x = true) (List.filter P l).
Proof.
  induction l as [|x l IH]; simpl; [constructor|].
  destruct (P x) eqn:E; [by constructor|done].
Qed.

Lemma ensure_loop_run cl acc cs n e clk k :
  ensure_loop cl acc (mkWorld (Some (mkDatabase cs n None)) e clk k)
  = (Ok (acc ++ cl),
     mkWorld (Some (mkDatabase (ensure_colls cl cs) (n + length cl) None)) e clk
       (k + length cl)).
Proof.
  revert acc cs n k. induction cl as [|c cl IH]; intros acc cs n k.
  - simpl. by rewrite app_nil_r, !Nat.add_0_r.
  - cbn [ensure_loop]. unfold bind.
    rewrite collection_up, now_run. cbv beta iota zeta.
    rewrite insert_one_up, collection_up. cbv beta iota zeta.
    erewrite delete_many_up by apply lookup_insert_eq. cbv beta iota zeta.
    rewrite insert_insert_eq, List.filter_app.
    change (List.filter (fun x => negb (doc_matches ensure_filter x)))
      with (List.filter not_marker).
    assert (List.filter not_marker
              [with_id n [("_ensure", VBool true); ("ts", VTime (clk k))]] = [])
      as -> by reflexivity.
    rewrite app_nil_r. rewrite IH. rewrite <- app_assoc. cbn [length app].
    by rewrite !Nat.add_succ_comm.
Qed.

Lemma get_coll_ensure c cl cs :
  get_coll c (ensure_colls cl cs)
  = if bool_decide (c ∈ cl) then List.filter not_marker (get_coll c cs)
    else get_coll c cs.
Proof.
  revert cs. induction cl as [|c0 cl IH]; intros cs; cbn [ensure_colls].
  - rewrite bool_decide_eq_false_2; [done|apply not_elem_of_nil].
  - rewrite IH. destruct (decide (c0 = c)) as [->|Hne].
    + rewrite get_coll_insert_eq, filter_idem.
      rewrite (bool_decide_eq_true_2 (c ∈ c :: cl)) by (apply elem_of_cons; by left).
      by destruct (bool_decide (c ∈ cl)).
    + rewrite get_coll_insert_ne by done.
      destruct (bool_decide (c ∈ cl)) eqn:E.
      * apply bool_decide_eq_true_1 in E.
        rewrite bool_decide_eq_true_2; [done|apply elem_of_cons; by right].
      * apply bool_decide_eq_false_1 in E.
        rewrite bool_decide_eq_false_2; [done|].
        apply not_elem_of_cons. split; [congruence|done].
Qed.

(** * Further properties of the handlers *)

(** ** Health and diagnostics *)

Lemma str_take_length n s : (String.length (str_take n s) <= n)%nat.
Proof.
  unfold str_take. revert s. induction n as [|n IH]; intros [|c s]; simpl; try lia.
  specialize (IH s). lia.
Qed.

Lemma string_length_app (a b : string) :
  String.length (a +:+ b) = (String.length a + String.length b)%nat.
Proof.
  induction a as [|c a IH]; [done|].
  change (S (String.length (a +:+ b)) = S (String.length a + String.length b)).
  by rewrite IH.
Qed.

Lemma getenv_bool_true k w :
  (getenv_bool k w).1 = Ok true <-> env_set k w.
Proof.
  unfold getenv_bool, env_set. simpl. destruct (env w !! k) as [s|].
  - destruct (String.eqb s "") eqn:E; simpl.
    + apply String.eqb_eq in E. split; [done|]. intros (s' & [= <-] & Hne). done.
    + apply String.eqb_neq in E. split; [|done]. intros _. by exists s.
  - split; [done|]. by intros (s & H & _).
Qed.

(** X1: [health] only reads: it returns with the store, the environment and
    the clock function as they were, one clock reading later; its
    [collections] field lists the collection names when the handle is
    present and the server answers, and is empty when the handle is absent
    or the listing raises. *)
Theorem health_reads_only (isoformat : Z -> string) (w : World) :
  exists status,
    health isoformat w
    = (Ok status, mkWorld (db w) (env w) (clock w) (S (ticks w))) /\
    doc_get "time" status = Some (VStr (isoformat (clock w (ticks w)))) /\
    doc_get "collections" status
    = Some (VList (match db w with
                   | Some d =>
                       match down d with
                       | None => VStr <$> collection_names d
                       | Some _ => []
                       end
                   | None => []
                   end)).
Proof.
  destruct w as [[[cs n [msg|]]|] e clk k]; eexists; split; try (cbn; reflexivity);
    split; reflexivity.
Qed.

(** X2: the [env] flags of [health] tell whether each variable is set to a
    non-empty string, whatever the state of the store. *)
Theorem health_env_flags (isoformat : Z -> string) (w : World) :
  exists status w' has_url has_name,
    health isoformat w = (Ok status, w') /\
    doc_get "env" status
    = Some (VDoc [("DATABASE_URL", VBool has_url); ("DATABASE_NAME", VBool has_name)]) /\
    (has_url = true <-> env_set "DATABASE_URL" w) /\
    (has_name = true <-> env_set "DATABASE_NAME" w).
Proof.
  pose proof (getenv_bool_true "DATABASE_URL" w) as Hurl.
  pose proof (getenv_bool_true "DATABASE_NAME" w) as Hname.
  destruct w as [[[cs n [msg|]]|] e clk k]; cbn [env] in *;
    eexists _, _, _, _; (split; [cbn; reflexivity|]); (split; [reflexivity|]);
    unfold getenv_bool in Hurl, Hname; cbn [fst env] in Hurl, Hname; split.
  all: first [rewrite <- Hurl | rewrite <- Hname]; split; congruence.
Qed.

(** X3: the [database] field of [health] is a string of at most 87
    characters: an error text is cut to 80 characters after the prefix. *)
Theorem health_database_bounded (isoformat : Z -> string) (w : World) :
  exists status w' txt,
    health isoformat w = (Ok status, w') /\
    doc_get "database" status = Some (VStr txt) /\
    (String.length txt <= 87)%nat.
Proof.
  destruct w as [[[cs n [msg|]]|] e clk k].
  - eexists _, _, _. split; [cbn; reflexivity|]. split; [reflexivity|].
    rewrite string_length_app.
    pose proof (str_take_length 80 msg) as Hcut. unfold str_take in Hcut.
    change (String.length "error: ") with 7%nat. lia.
  - eexists _, _, _. split; [cbn; reflexivity|]. split; [reflexivity|]. simpl. lia.
  - eexists _, _, _. split; [cbn; reflexivity|]. split; [reflexivity|]. simpl. lia.
Qed.

(** X4: [test_database] never raises and changes nothing; it reports
    ["not_configured"] exactly when the store handle is absent, ["ok"]
    exactly when the handle is present and the listing succeeds, and the
    cut error text when the listing raises. *)
Theorem test_database_report (w : World) :
  exists response,
    test_database w = (Ok response, w) /\
    (doc_get "database" response = Some (VStr "not_configured") <-> db w = None) /\
    (doc_get "database" response = Some (VStr "ok") <->
     exists d, db w = Some d /\ down d = None) /\
    (forall d msg, db w = Some d -> down d = Some msg ->
       doc_get "database" response = Some (VStr ("error: " +:+ str_take 80 msg)) /\
       doc_get "collections" response = Some (VList [])) /\
    (forall d, db w = Some d -> down d = None ->
       doc_get "collections" response = Some (VList (VStr <$> collection_names d))).
Proof.
  destruct w as [[[cs n [msg|]]|] e clk k];
    (eexists; split; [cbn; reflexivity|]); repeat split; intros;
    repeat match goal with
           | H : exists _, _ |- _ => destruct H
           | H : _ /\ _ |- _ => destruct H
           end;
    simplify_eq/=; try done; try (by eexists).
  all: match goal with H : _ = _ |- _ => cbv in H; discriminate H end.
Qed.

(** X5: with a store handle, [health] and [test_database] report the same
    [database] and [collections] fields; without one they differ: [health]
    says ["error"], [test_database] says ["not_configured"]. *)
Theorem health_test_database_agree (isoformat : Z -> string) (w : World) :
  exists status w1 response w2,
    health isoformat w = (Ok status, w1) /\
    test_database w = (Ok response, w2) /\
    doc_get "collections" status = doc_get "collections" response /\
    doc_get "env" status = doc_get "env" response /\
    (is_Some (db w) -> doc_get "database" status = doc_get "database" response) /\
    (db w = None ->
     doc_get "database" status = Some (VStr "error") /\
     doc_get "database" response = Some (VStr "not_configured")).
Proof.
  destruct w as [[[cs n [msg|]]|] e clk k];
    eexists _, _, _, _; (split; [cbn; reflexivity|]); (split; [cbn; reflexivity|]);
    (split; [reflexivity|]); (split; [reflexivity|]); split;
    try (intros; reflexivity); try (intros; split; reflexivity).
  - intros H. discriminate H.
  - intros H. discriminate H.
  - intros [d H]. discriminate H.
Qed.

(** ** Driver errors *)

(** X10: [heal] and [update_settings] have no handler of their own: when
    the server does not answer, the driver's exception leaves them at their
    first store operation, after one clock reading and with the store as
    it was. *)
Theorem driver_errors_propagate (w : World) (d : Database) (msg : string) :
  db w = Some d -> down d = Some msg ->
  heal w
  = (Raise (DriverError msg), mkWorld (db w) (env w) (clock w) (S (ticks w))) /\
  (forall req,
      update_settings req w
      = (Raise (DriverError msg), mkWorld (db w) (env w) (clock w) (S (ticks w)))).
Proof.
  intros Hdb Hdown. destruct w as [o e clk k], d as [cs n dn]. simpl in *. subst.
  split; [reflexivity|]. intros req. reflexivity.
Qed.

Lemma driver_errors_propagate_witness :
  db down_world = Some (mkDatabase ∅ 0 (Some "connection refused")) /\
  heal down_world
  = (Raise (DriverError "connection refused"),
     mkWorld (db down_world) (env down_world) (clock down_world) 1).
Proof.
  split; [reflexivity|].
  exact (proj1 (driver_errors_propagate down_world _ "connection refused"
                  eq_refl eq_refl)).
Defined.

(** ** Backtest: outcome, curve and job record *)

Section BacktestMore.
Variable isoformat : Z -> string.
Variable F : Type.
Variable F_of_Z : Z -> F.
Variables fadd fsub fmul fdiv : F -> F -> F.
Variables fsin fcos round2 : F -> F.

Local Abbreviation run_backtest :=
  (backtest isoformat F F_of_Z fadd fsub fmul fdiv fsin fcos round2).
Local Abbreviation curve := (equity_value F F_of_Z fadd fmul fdiv fsin fcos).

(** X12: [backtest] never fails on its own series: whatever the day count
    (zero and negative ones included) the series is not empty, so reading
    its first and last point never raises an index error; and it returns
    only when the store is reachable. *)
Theorem backtest_outcome (req : BacktestRequest) (w : World) :
  (run_backtest req w).1 <> Raise IndexError /\
  (forall resp, (run_backtest req w).1 = Ok resp -> up w).
Proof.
  unfold backtest, bind. rewrite series_loop_points.
  pose proof (clamp_days_range (days req)) as Hr.
  pose proof (length_range (clamp_days (days req))) as Hlen.
  destruct (range (clamp_days (days req))) as [|i idx]; [simpl in Hlen; lia|].
  cbn [imap app head].
  destruct (last _) as [q|] eqn:Hlast.
  2: { by apply last_None in Hlast. }
  destruct w as [[[cs n [msg|]]|] e clk k]; cbn; (split; [discriminate|]);
    intros resp H; try discriminate H.
  eexists. split; reflexivity.
Qed.

(** X13: on a reachable store the [i]-th point of the returned series, for
    every [i] below the clamped day count, has the equity
    [round(10000 + 12 i + 50 sin(i/6) + 10 cos(i/3), 2)] and is dated
    [days - i] days before the [i]-th clock reading; symbol and strategy
    play no part. *)
Theorem backtest_equity_curve (req : BacktestRequest) (w : World) (i : nat) :
  up w ->
  (i < Z.to_nat (clamp_days (days req)))%nat ->
  exists resp w',
    run_backtest req w = (Ok resp, w') /\
    series resp !! i
    = Some (mkPoint
              (isoformat (clock w (ticks w + i)%nat
                          - timedelta_days (clamp_days (days req) - Z.of_nat i)))
              (round2
                 (fadd (fadd (fadd (F_of_Z 10000) (F_of_Z (Z.of_nat i * 12)))
                          (fmul (fsin (fdiv (F_of_Z (Z.of_nat i)) (F_of_Z 6))) (F_of_Z 50)))
                    (fmul (fcos (fdiv (F_of_Z (Z.of_nat i)) (F_of_Z 3))) (F_of_Z 10))))).
Proof.
  intros Hup Hi. destruct (up_inv w Hup) as (cs & n & e & clk & k & ->).
  unfold backtest, bind. rewrite series_loop_points.
  cbn [app db env clock ticks].
  set (pts := imap _ (range (clamp_days (days req)))).
  assert (Hpt : pts !! i
                = Some (mkPoint
                          (isoformat (clk (k + i)%nat
                                      - timedelta_days (clamp_days (days req) - Z.of_nat i)))
                          (round2 (curve (Z.of_nat i))))).
  { unfold pts. rewrite list_lookup_imap. unfold range.
    rewrite list_lookup_fmap, lookup_seq_lt by done. reflexivity. }
  destruct pts as [|p pts']; [by rewrite lookup_nil in Hpt|].
  destruct (last (p :: pts')) as [q|] eqn:Hlast.
  2: { by apply last_None in Hlast. }
  cbn [head]. rewrite create_document_up.
  eexists _, _. split; [reflexivity|]. exact Hpt.
Qed.

(** X14: when [backtest] returns, it has appended one document to the job
    collection, of kind ["backtest"] and status ["completed"], whose payload
    is the request as received (the day count before clamping), and has
    left every other collection as it was. *)
Theorem backtest_records_job (req : BacktestRequest) (w : World)
    (resp : BacktestResponse F) (w' : World) :
  run_backtest req w = (Ok resp, w') ->
  exists job,
    docs_of "job" w' = docs_of "job" w ++ [job] /\
    doc_get "kind" job = Some (VStr "backtest") /\
    doc_get "status" job = Some (VStr "completed") /\
    doc_get "owner_email" job = Some VNull /\
    doc_get "payload" job
    = Some (VDoc [("symbol", VStr (symbol req));
                  ("strategy", VDoc [("name", VStr (Strategy.name (strategy req)));
                                     ("params", VDoc (Strategy.params (strategy req)))]);
                  ("days", VInt (days req))]) /\
    (forall c, c <> "job" -> docs_of c w' = docs_of c w).
Proof.
  unfold backtest, bind. rewrite series_loop_points.
  pose proof (clamp_days_range (days req)) as Hr.
  pose proof (length_range (clamp_days (days req))) as Hlen.
  destruct (range (clamp_days (days req))) as [|i idx]; [simpl in Hlen; lia|].
  cbn [imap app head].
  destruct (last _) as [q|] eqn:Hlast.
  2: { by apply last_None in Hlast. }
  destruct w as [[[cs n [msg|]]|] e clk k]; cbn [db env clock ticks];
    try (cbn; intros H; discriminate H).
  rewrite create_document_up. intros H. injection H as _ <-.
  eexists. cbn [docs_of db colls].
  rewrite get_coll_insert_eq. split; [reflexivity|].
  repeat split; try reflexivity.
  intros c Hc. by rewrite get_coll_insert_ne.
Qed.
End BacktestMore.

Lemma backtest_equity_curve_witness :
  up fresh_world /\
  exists resp w',
    backtest pretty Z id Z.add Z.sub Z.mul Z.div id id id
      (mkBacktestRequest "BTCUSDT" (Strategy.mk "momentum" []) (-3)) fresh_world
      = (Ok resp, w') /\
    series resp !! 4%nat = Some (mkPoint "-86399999996" 10058).
Proof.
  assert (up fresh_world) as Hup by (eexists; split; reflexivity).
  split; [exact Hup|].
  destruct (backtest_equity_curve pretty Z id Z.add Z.sub Z.mul Z.div id id id
              (mkBacktestRequest "BTCUSDT" (Strategy.mk "momentum" []) (-3))
              fresh_world 4%nat Hup)
    as (resp & w' & Hrun & Hpt); [vm_compute; lia|].
  exists resp, w'. split; [exact Hrun|]. rewrite Hpt. reflexivity.
Defined.

Lemma backtest_records_job_witness :
  exists resp w' job,
    backtest pretty Z id Z.add Z.sub Z.mul Z.div id id id
      (mkBacktestRequest "BTCUSDT" (Strategy.mk "momentum" []) 10000) fresh_world
      = (Ok resp, w') /\
    docs_of "job" w' = [job] /\
    doc_get "payload" job
    = Some (VDoc [("symbol", VStr "BTCUSDT");
                  ("strategy", VDoc [("name", VStr "momentum"); ("params", VDoc [])]);
                  ("days", VInt 10000)]).
Proof.
  destruct (backtest pretty Z id Z.add Z.sub Z.mul Z.div id id id
              (mkBacktestRequest "BTCUSDT" (Strategy.mk "momentum" []) 10000) fresh_world)
    as [[resp|e] w'] eqn:Hrun; [|vm_compute in Hrun; discriminate Hrun].
  destruct (backtest_records_job pretty Z id Z.add Z.sub Z.mul Z.div id id id
              (mkBacktestRequest "BTCUSDT" (Strategy.mk "momentum" []) 10000)
              fresh_world resp w' Hrun)
    as (job & Hdocs & _ & _ & _ & Hpay & _).
  exists resp, w', job. split; [reflexivity|]. split; [exact Hdocs|exact Hpay].
Defined.

(** ** What the writing handlers store *)

(** X15: on a reachable store [generate_script] appends one draft video
    whose stored script is the script it returns and whose identifier is
    the [id] it returns, then one audit record naming the topic; no other
    collection changes. *)
Theorem generate_script_persists (req : ScriptRequest) (w : World) :
  up w ->
  exists resp w' video audit oid content,
    generate_script req w = (Ok resp, w') /\
    docs_of "video" w' = docs_of "video" w ++ [video] /\
    doc_get "script" resp = Some (VStr content) /\
    doc_get "script" video = Some (VStr content) /\
    doc_get "status" video = Some (VStr "draft") /\
    doc_get "_id" video = Some (VOid oid) /\
    doc_get "id" resp = Some (VStr (pretty oid)) /\
    docs_of "audit" w' = docs_of "audit" w ++ [audit] /\
    doc_get "action" audit = Some (VStr "script_generate") /\
    doc_get "details" audit = Some (VDoc [("topic", VStr (topic req))]) /\
    (forall c, c <> "video" -> c <> "audit" -> docs_of c w' = docs_of c w).
Proof.
  intros Hup. destruct (up_inv w Hup) as (cs & n & e & clk & k & ->).
  unfold generate_script, bind. rewrite !create_document_up.
  eexists _, _, _, _, n, _. split; [reflexivity|].
  cbn [docs_of db colls]. simpl_colls.
  split; [reflexivity|]. repeat split; try reflexivity.
  intros c H1 H2. by rewrite !get_coll_insert_ne.
Qed.

Lemma generate_script_persists_witness :
  up fresh_world /\
  exists resp w' video,
    generate_script (mkScriptRequest "sorting" "educational" 3) fresh_world
      = (Ok resp, w') /\
    docs_of "video" w' = [video] /\
    doc_get "script" video = doc_get "script" resp /\
    doc_get "id" resp = Some (VStr "0").
Proof.
  assert (up fresh_world) as Hup by (eexists; split; reflexivity).
  split; [exact Hup|].
  destruct (generate_script_persists (mkScriptRequest "sorting" "educational" 3)
              fresh_world Hup)
    as (resp & w' & video & audit & oid & content & Hrun & Hdocs & Hs1 & Hs2 & _
        & Hoid & Hid & _).
  exists resp, w', video. split; [exact Hrun|]. split; [exact Hdocs|].
  split; [congruence|].
  cbn [docs_of db fresh_world fresh_db colls] in Hdocs.
  injection Hrun as <- <-. exact eq_refl.
Defined.

(** X16: on a reachable store [submit_contact] appends the message to the
    contact collection and then an audit record whose actor is the sender's
    address and whose detail is the sender's name; the [id] it returns is
    the message's, not the audit record's. *)
Theorem submit_contact_records (msg : ContactMessage.t) (w : World) :
  up w ->
  exists resp w' stored_msg audit oid,
    submit_contact msg w = (Ok resp, w') /\
    docs_of "contactmessage" w' = docs_of "contactmessage" w ++ [stored_msg] /\
    doc_get "name" stored_msg = Some (VStr (ContactMessage.name msg)) /\
    doc_get "email" stored_msg = Some (VStr (ContactMessage.email msg)) /\
    doc_get "message" stored_msg = Some (VStr (ContactMessage.message msg)) /\
    doc_get "_id" stored_msg = Some (VOid oid) /\
    resp = [("id", VStr (pretty oid))] /\
    docs_of "audit" w' = docs_of "audit" w ++ [audit] /\
    doc_get "_id" audit = Some (VOid (S oid)) /\
    doc_get "action" audit = Some (VStr "contact_submit") /\
    doc_get "actor" audit = Some (VStr (ContactMessage.email msg)) /\
    doc_get "details" audit = Some (VDoc [("name", VStr (ContactMessage.name msg))]).
Proof.
  intros Hup. destruct (up_inv w Hup) as (cs & n & e & clk & k & ->).
  unfold submit_contact, bind. rewrite !create_document_up.
  eexists _, _, _, _, n. split; [reflexivity|].
  cbn [docs_of db colls]. simpl_colls.
  split; [reflexivity|]. repeat split; reflexivity.
Qed.

Lemma submit_contact_records_witness :
  up fresh_world /\
  exists resp w' stored_msg,
    submit_contact (ContactMessage.mk "Ann" "ann@example.org" "hello") fresh_world
      = (Ok resp, w') /\
    docs_of "contactmessage" w' = [stored_msg] /\
    doc_get "message" stored_msg = Some (VStr "hello").
Proof.
  assert (up fresh_world) as Hup by (eexists; split; reflexivity).
  split; [exact Hup|].
  destruct (submit_contact_records (ContactMessage.mk "Ann" "ann@example.org" "hello")
              fresh_world Hup)
    as (resp & w' & m & a & oid & Hrun & Hdocs & _ & _ & Hmsg & _).
  exists resp, w', m. split; [exact Hrun|]. split; [exact Hdocs|exact Hmsg].
Defined.

(** X17: [create_user] checks nothing about the address: on a reachable
    store it always appends a document with the user's fields, so the
    number of user documents with that email grows by one at each call; it
    writes no audit record and touches no other collection. *)
Theorem create_user_always_appends (user : User.t) (w : World) :
  up w ->
  exists resp w' u oid,
    create_user user w = (Ok resp, w') /\
    resp = [("id", VStr (pretty oid))] /\
    docs_of "user" w' = docs_of "user" w ++ [u] /\
    doc_get "_id" u = Some (VOid oid) /\
    (forall key, key <> "_id" -> key <> "created_at" ->
                 doc_get key u = doc_get key (User.model_dump user)) /\
    count_matching (email_filter (User.email user)) (docs_of "user" w')
    = S (count_matching (email_filter (User.email user)) (docs_of "user" w)) /\
    (forall c, c <> "user" -> docs_of c w' = docs_of c w).
Proof.
  intros Hup. destruct (up_inv w Hup) as (cs & n & e & clk & k & ->).
  unfold create_user, bind. rewrite create_document_up.
  eexists _, _, _, n. split; [reflexivity|]. split; [reflexivity|].
  cbn [docs_of db colls]. simpl_colls.
  split; [reflexivity|]. split; [reflexivity|]. split; [|split].
  - intros key H1 H2. unfold with_id. cbn [doc_get User.model_dump doc_set String.eqb].
    cbn. assert (String.eqb key "_id" = false) as -> by (by apply String.eqb_neq).
    assert (String.eqb key "created_at" = false) as -> by (by apply String.eqb_neq).
    by repeat destruct (String.eqb key _).
  - unfold count_matching. rewrite List.filter_app, length_app.
    cbn [List.filter].
    assert (doc_matches (email_filter (User.email user))
              (with_id n (doc_set "created_at" (VTime (clk k)) (User.model_dump user)))
            = true) as ->.
    { unfold doc_matches, email_filter, User.model_dump. simpl.
      by rewrite String.eqb_refl. }
    simpl. lia.
  - intros c Hc. by rewrite get_coll_insert_ne.
Qed.

Lemma create_user_always_appends_witness :
  up ann_world /\
  exists resp w',
    create_user (User.mk "Ann" "ann@example.org" "user" None [] true) ann_world
      = (Ok resp, w') /\
    count_matching (email_filter "ann@example.org") (docs_of "user" w') = 2%nat.
Proof.
  assert (up ann_world) as Hup by (eexists; split; reflexivity).
  split; [exact Hup|].
  destruct (create_user_always_appends
              (User.mk "Ann" "ann@example.org" "user" None [] true) ann_world Hup)
    as (resp & w' & u & oid & Hrun & _ & _ & _ & _ & Hcount & _).
  exists resp, w'. split; [exact Hrun|exact Hcount].
Defined.

(** ** Settings: what an update returns and leaves *)

Lemma update_settings_run_state req cs n e clk k :
  update_settings req (mkWorld (Some (mkDatabase cs n None)) e clk k)
  = (let '(users', n') := settings_users req (clk k) n (get_coll "user" cs) in
     (Ok [("user",
           opt_doc (doc_del "_id"
                      <$> head (List.filter (doc_matches (email_filter (su_email req)))
                                  users')))],
      mkWorld
        (Some (mkDatabase
                 (<["audit" := get_coll "audit" cs
                               ++ [stored n' (clk (S k))
                                     (Audit.model_dump (settings_audit req))]]>
                    (<["user" := users']> cs))
                 (S n') None))
        e clk (S (S k)))).
Proof.
  unfold update_settings, bind. rewrite collection_up, now_run. cbv beta iota zeta.
  unfold update_one_upsert, driver. cbn [db down next_oid colls env clock ticks].
  fold (email_filter (su_email req)). fold (settings_sets req (clk k)).
  unfold settings_users.
  destruct (update_first _ _ (get_coll "user" cs)) as [users'|];
    rewrite create_document_up;
    unfold find_one_no_id, driver; cbn [db down next_oid colls ret];
    fold (email_filter (su_email req)); simpl_colls; reflexivity.
Qed.

Lemma email_filter_after_del email d :
  doc_matches (email_filter email) (doc_del "_id" d) = doc_matches (email_filter email) d.
Proof.
  unfold doc_matches, email_filter. simpl. by rewrite doc_get_del_ne.
Qed.

(** The first match after the upsert: it carries the supplied settings and
    the time of the update, and still matches the address. *)
Lemma settings_users_head req now n users :
  exists d,
    head (List.filter (doc_matches (email_filter (su_email req)))
            (settings_users req now n users).1) = Some d /\
    doc_get "settings" d = Some (VDoc (su_settings req)) /\
    doc_get "updated_at" d = Some (VTime now) /\
    doc_matches (email_filter (su_email req)) d = true.
Proof.
  unfold settings_users.
  destruct (update_first _ _ users) as [users'|] eqn:Hupd; cbn [fst].
  - destruct (update_first_some _ _ _ _ Hupd) as (pre & d & post & _ & -> & Hpre & Hd).
    rewrite filter_first_match; [|done|by rewrite email_filter_after_set].
    eexists. split; [reflexivity|]. unfold apply_set, settings_sets. cbn [fold_left].
    split; [|split].
    + rewrite doc_get_set_ne by done. apply doc_get_set_eq.
    + apply doc_get_set_eq.
    + change (doc_matches (email_filter (su_email req))
                (apply_set (settings_sets req now) d) = true).
      by rewrite email_filter_after_set.
  - pose proof (update_first_none_inv _ _ _ Hupd) as Hnone.
    rewrite List.filter_app, Hnone. cbn [List.filter app].
    rewrite upserted_doc_matches. eexists. split; [reflexivity|].
    split; [reflexivity|]. split; [reflexivity|]. apply upserted_doc_matches.
Qed.

Lemma settings_users_others req now n users :
  List.filter (fun d => negb (doc_matches (email_filter (su_email req)) d))
    (settings_users req now n users).1
  = List.filter (fun d => negb (doc_matches (email_filter (su_email req)) d)) users.
Proof.
  unfold settings_users.
  destruct (update_first _ _ users) as [users'|] eqn:Hupd; cbn [fst].
  - destruct (update_first_some _ _ _ _ Hupd) as (pre & d & post & -> & -> & Hpre & Hd).
    rewrite !List.filter_app. cbn [List.filter].
    by rewrite email_filter_after_set, Hd.
  - rewrite List.filter_app. cbn [List.filter].
    rewrite upserted_doc_matches. apply app_nil_r.
Qed.

Lemma settings_users_count req now n users :
  count_matching (email_filter (su_email req)) (settings_users req now n users).1
  = Nat.max 1 (count_matching (email_filter (su_email req)) users).
Proof.
  unfold settings_users, count_matching.
  destruct (update_first _ _ users) as [users'|] eqn:Hupd; cbn [fst].
  - destruct (update_first_some _ _ _ _ Hupd) as (pre & d & post & -> & -> & Hpre & Hd).
    rewrite !filter_first_match; [|done|done|done|by rewrite email_filter_after_set].
    simpl. lia.
  - pose proof (update_first_none_inv _ _ _ Hupd) as Hnone.
    rewrite List.filter_app, Hnone. cbn [List.filter app].
    by rewrite upserted_doc_matches.
Qed.

(** X18: on a reachable store the user [update_settings] returns always
    carries the supplied settings map and the time of the call, matches the
    request email and has no [_id]. *)
Theorem update_settings_returns_supplied_settings (req : SettingsUpdate) (w : World) :
  up w ->
  exists user w',
    update_settings req w = (Ok [("user", VDoc user)], w') /\
    doc_get "settings" user = Some (VDoc (su_settings req)) /\
    doc_get "updated_at" user = Some (VTime (clock w (ticks w))) /\
    doc_get "_id" user = None /\
    doc_matches (email_filter (su_email req)) user = true.
Proof.
  intros Hup. destruct (up_inv w Hup) as (cs & n & e & clk & k & ->).
  rewrite update_settings_run_state. cbn [clock ticks].
  destruct (settings_users_head req (clk k) n (get_coll "user" cs))
    as (d & Hhead & Hset & Htime & Hmatch).
  destruct (settings_users req (clk k) n (get_coll "user" cs)) as [users' n'].
  cbn [fst] in Hhead. rewrite Hhead. cbn [fmap option_fmap option_map opt_doc].
  eexists _, _. split; [reflexivity|].
  rewrite !doc_get_del_ne by done. rewrite doc_get_del_eq, email_filter_after_del.
  done.
Qed.

Lemma update_settings_returns_supplied_settings_witness :
  up ann_world /\
  exists user w',
    update_settings (mkSettingsUpdate "ann@example.org" [("lang", VStr "en")])
      ann_world = (Ok [("user", VDoc user)], w') /\
    doc_get "settings" user = Some (VDoc [("lang", VStr "en")]) /\
    doc_get "_id" user = None.
Proof.
  assert (up ann_world) as Hup by (eexists; split; reflexivity).
  split; [exact Hup|].
  destruct (update_settings_returns_supplied_settings
              (mkSettingsUpdate "ann@example.org" [("lang", VStr "en")]) ann_world Hup)
    as (user & w' & Hrun & Hset & _ & Hid & _).
  exists user, w'. split; [exact Hrun|]. split; [exact Hset|exact Hid].
Defined.

(** X19: the user record an upsert creates is not a full user: when no
    user document matches the email, the stored document has exactly the
    fields [_id], [email], [settings] and [updated_at], and the returned
    one the last three; [name], [role] and [is_active] are missing. *)
Theorem update_settings_upsert_is_partial (req : SettingsUpdate) (w : World) :
  up w ->
  List.filter (doc_matches (email_filter (su_email req))) (docs_of "user" w) = [] ->
  exists w' oid,
    update_settings req w
    = (Ok [("user", VDoc [("email", VStr (su_email req));
                          ("settings", VDoc (su_settings req));
                          ("updated_at", VTime (clock w (ticks w)))])], w') /\
    docs_of "user" w'
    = docs_of "user" w
      ++ [[("_id", VOid oid); ("email", VStr (su_email req));
           ("settings", VDoc (su_settings req));
           ("updated_at", VTime (clock w (ticks w)))]].
Proof.
  intros Hup Hnone. destruct (up_inv w Hup) as (cs & n & e & clk & k & ->).
  cbn [docs_of db colls clock ticks] in *.
  rewrite update_settings_run_state. unfold settings_users.
  rewrite (update_first_none _ _ _ Hnone).
  rewrite List.filter_app, Hnone. cbn [List.filter app].
  rewrite upserted_doc_matches.
  eexists _, n. split; [reflexivity|].
  cbn [docs_of db colls]. by simpl_colls.
Qed.

Lemma update_settings_upsert_is_partial_witness :
  up fresh_world /\
  exists w',
    update_settings (mkSettingsUpdate "bob@example.org" [("theme", VStr "light")])
      fresh_world
    = (Ok [("user", VDoc [("email", VStr "bob@example.org");
                          ("settings", VDoc [("theme", VStr "light")]);
                          ("updated_at", VTime 0)])], w').
Proof.
  assert (up fresh_world) as Hup by (eexists; split; reflexivity).
  split; [exact Hup|].
  destruct (update_settings_upsert_is_partial
              (mkSettingsUpdate "bob@example.org" [("theme", VStr "light")])
              fresh_world Hup eq_refl)
    as (w' & oid & Hrun & _).
  exists w'. exact Hrun.
Defined.

(** X20: the frame of [update_settings] on a reachable store: the user
    documents that do not match the email are as before, the number of
    matching ones is unchanged unless it was zero, in which case it is one,
    the audit collection gains one ["settings_update"] record whose actor is
    the email, and no other collection changes. *)
Theorem update_settings_frame (req : SettingsUpdate) (w : World) :
  up w ->
  exists resp w' audit,
    update_settings req w = (Ok resp, w') /\
    List.filter (fun d => negb (doc_matches (email_filter (su_email req)) d))
      (docs_of "user" w')
    = List.filter (fun d => negb (doc_matches (email_filter (su_email req)) d))
        (docs_of "user" w) /\
    count_matching (email_filter (su_email req)) (docs_of "user" w')
    = Nat.max 1 (count_matching (email_filter (su_email req)) (docs_of "user" w)) /\
    docs_of "audit" w' = docs_of "audit" w ++ [audit] /\
    doc_get "action" audit = Some (VStr "settings_update") /\
    doc_get "actor" audit = Some (VStr (su_email req)) /\
    doc_get "details" audit = Some (VDoc []) /\
    (forall c, c <> "user" -> c <> "audit" -> docs_of c w' = docs_of c w).
Proof.
  intros Hup. destruct (up_inv w Hup) as (cs & n & e & clk & k & ->).
  rewrite update_settings_run_state.
  pose proof (settings_users_others req (clk k) n (get_coll "user" cs)) as Hothers.
  pose proof (settings_users_count req (clk k) n (get_coll "user" cs)) as Hcount.
  destruct (settings_users req (clk k) n (get_coll "user" cs)) as [users' n'].
  cbn [fst] in Hothers, Hcount.
  eexists _, _, _. split; [reflexivity|]. cbn [docs_of db colls]. simpl_colls.
  split; [exact Hothers|]. split; [exact Hcount|]. split; [reflexivity|].
  repeat split; try reflexivity.
  intros c H1 H2. by rewrite !get_coll_insert_ne.
Qed.

Lemma update_settings_frame_witness :
  up ann_world /\
  exists resp w',
    update_settings (mkSettingsUpdate "bob@example.org" [("theme", VStr "light")])
      ann_world = (Ok resp, w') /\
    List.filter (fun d => negb (doc_matches (email_filter "bob@example.org") d))
      (docs_of "user" w') = [ann_doc] /\
    count_matching (email_filter "bob@example.org") (docs_of "user" w') = 1%nat.
Proof.
  assert (up ann_world) as Hup by (eexists; split; reflexivity).
  split; [exact Hup|].
  destruct (update_settings_frame
              (mkSettingsUpdate "bob@example.org" [("theme", VStr "light")])
              ann_world Hup)
    as (resp & w' & a & Hrun & Hothers & Hcount & _).
  exists resp, w'. split; [exact Hrun|]. split; [exact Hothers|exact Hcount].
Defined.

(** X21: last writer wins: of two updates in sequence for the same email
    on a reachable store, the second returns its own settings, creates no
    further user document, and leaves as many documents with that email as
    the first did. *)
Theorem update_settings_last_writer_wins (req1 req2 : SettingsUpdate) (w : World) :
  up w ->
  su_email req1 = su_email req2 ->
  exists resp1 w1 user2 w2,
    update_settings req1 w = (Ok resp1, w1) /\
    update_settings req2 w1 = (Ok [("user", VDoc user2)], w2) /\
    doc_get "settings" user2 = Some (VDoc (su_settings req2)) /\
    length (docs_of "user" w2) = length (docs_of "user" w1) /\
    count_matching (email_filter (su_email req2)) (docs_of "user" w2)
    = count_matching (email_filter (su_email req2)) (docs_of "user" w1).
Proof.
  intros Hup Hemail. destruct (up_inv w Hup) as (cs & n & e & clk & k & ->).
  rewrite update_settings_run_state.
  pose proof (settings_users_count req1 (clk k) n (get_coll "user" cs)) as Hcount1.
  destruct (settings_users req1 (clk k) n (get_coll "user" cs)) as [users1 n1].
  cbn [fst] in Hcount1. rewrite Hemail in Hcount1.
  set (cs1 := <["audit" := _]> (<["user" := users1]> cs)).
  pose proof (update_settings_run_state req2 cs1 (S n1) e clk (S (S k))) as Hrun2.
  assert (get_coll "user" cs1 = users1) as Hu1 by (unfold cs1; by simpl_colls).
  rewrite Hu1 in Hrun2.
  pose proof (settings_users_head req2 (clk (S (S k))) (S n1) users1)
    as (d & Hhead & Hset & _).
  pose proof (settings_users_count req2 (clk (S (S k))) (S n1) users1) as Hcount2.
  assert (Hlen : length (settings_users req2 (clk (S (S k))) (S n1) users1).1
                 = length users1).
  { unfold settings_users.
    destruct (update_first _ _ users1) as [users2|] eqn:Hupd; cbn [fst].
    - destruct (update_first_some _ _ _ _ Hupd) as (pre & d0 & post & -> & -> & _).
      by rewrite !length_app.
    - apply update_first_none_inv in Hupd. unfold count_matching in Hcount1.
      rewrite Hupd in Hcount1. simpl in Hcount1. lia. }
  destruct (settings_users req2 (clk (S (S k))) (S n1) users1) as [users2 n2].
  cbn [fst] in Hhead, Hcount2, Hlen. rewrite Hhead in Hrun2.
  cbn [fmap option_fmap option_map opt_doc] in Hrun2.
  eexists _, _, _, _. split; [reflexivity|]. split; [exact Hrun2|].
  cbn [docs_of db colls]. rewrite Hu1. simpl_colls.
  split; [by rewrite doc_get_del_ne|]. split; [exact Hlen|].
  rewrite Hcount2, Hcount1. lia.
Qed.

Lemma update_settings_last_writer_wins_witness :
  up fresh_world /\
  exists resp1 w1 user2 w2,
    update_settings (mkSettingsUpdate "bob@example.org" [("theme", VStr "light")])
      fresh_world = (Ok resp1, w1) /\
    update_settings (mkSettingsUpdate "bob@example.org" [("theme", VStr "dark")])
      w1 = (Ok [("user", VDoc user2)], w2) /\
    doc_get "settings" user2 = Some (VDoc [("theme", VStr "dark")]) /\
    length (docs_of "user" w2) = length (docs_of "user" w1).
Proof.
  assert (up fresh_world) as Hup by (eexists; split; reflexivity).
  split; [exact Hup|].
  destruct (update_settings_last_writer_wins
              (mkSettingsUpdate "bob@example.org" [("theme", VStr "light")])
              (mkSettingsUpdate "bob@example.org" [("theme", VStr "dark")])
              fresh_world Hup eq_refl)
    as (resp1 & w1 & user2 & w2 & H1 & H2 & Hset & Hlen & _).
  exists resp1, w1, user2, w2. auto.
Defined.

(** * Self-heal *)

(** ** One call on a reachable store *)

Lemma take_one_nil (l : list Doc) : take 1 l = [] -> l = [].
Proof. by destruct l. Qed.

Lemma take_one_cons (l : list Doc) x xs : take 1 l = x :: xs -> l <> [].
Proof. by destruct l. Qed.

Lemma heal_run_state cs n e clk k :
  heal (mkWorld (Some (mkDatabase cs n None)) e clk k)
  = (let '(r, (m, n', k')) := heal_state clk cs n k in
     (r, mkWorld (Some (mkDatabase m n' None)) e clk k')).
Proof.
  unfold heal. cbn [db]. unfold bind, ret.
  rewrite ensure_loop_run. cbv beta iota zeta.
  rewrite collection_up. cbv beta iota zeta.
  rewrite find_limit_up. cbv beta iota zeta.
  unfold heal_state, seed_step. fold admin_role_filter.
  destruct (take 1 (List.filter (doc_matches admin_role_filter)
                      (get_coll "role" (ensure_colls critical cs)))) as [|r0 rs].
  - rewrite create_document_up. cbv beta iota zeta.
    rewrite collection_up. cbv beta iota zeta.
    rewrite find_limit_up. cbv beta iota zeta. fold admin_user_filter.
    destruct (take 1 (List.filter (doc_matches admin_user_filter) _)) as [|u0 us].
    + reflexivity.
    + rewrite create_document_up. reflexivity.
  - rewrite collection_up. cbv beta iota zeta.
    rewrite find_limit_up. cbv beta iota zeta. fold admin_user_filter.
    destruct (take 1 (List.filter (doc_matches admin_user_filter) _)) as [|u0 us].
    + reflexivity.
    + rewrite create_document_up. reflexivity.
Qed.

Lemma ensure_colls_lookup c cl (cs : gmap string (list Doc)) :
  c ∈ cl \/ is_Some (cs !! c) -> is_Some (ensure_colls cl cs !! c).
Proof.
  revert cs. induction cl as [|c0 cl IH]; intros cs [Hc|Hc]; cbn [ensure_colls].
  - by apply elem_of_nil in Hc.
  - done.
  - apply IH. apply elem_of_cons in Hc as [->|Hc]; [right|by left].
    rewrite lookup_insert_eq. by eexists.
  - apply IH. right. apply lookup_insert_is_Some'. by right.
Qed.

Lemma elem_of_collection_names c d :
  c ∈ collection_names d <-> is_Some (colls d !! c).
Proof.
  unfold collection_names. rewrite list_elem_of_fmap. split.
  - intros ([c' l] & -> & H). apply elem_of_map_to_list in H. by eexists.
  - intros [l H]. exists (c, l). split; [done|]. by apply elem_of_map_to_list.
Qed.

Lemma get_coll_ensure_critical c cs :
  c ∈ critical ->
  get_coll c (ensure_colls critical cs) = List.filter not_marker (get_coll c cs).
Proof. intros Hc. by rewrite get_coll_ensure, bool_decide_eq_true_2. Qed.

(** What one call of [heal] does on a reachable store.  The ensuring loop
    removes the flagged documents of the ten critical collections and
    creates the collections; an admin role is appended unless one is
    found; no user is ever appended, because the administrator's address
    [admin@local] is refused when the [User] is built: with no such user
    stored the call ends there in a [ValidationError], before the audit
    record; with one stored the call writes the audit record and returns. *)
Lemma heal_spec w :
  up w ->
  exists r w' d d',
    heal w = (r, w') /\ db w = Some d /\ db w' = Some d' /\ down d' = None /\
    (let l := List.filter not_marker (docs_of "role" w) in
     (List.filter (doc_matches admin_role_filter) l <> [] /\ docs_of "role" w' = l) \/
     (List.filter (doc_matches admin_role_filter) l = [] /\
      exists oid ts,
        docs_of "role" w' = l ++ [stored oid ts (Role.model_dump admin_role)])) /\
    docs_of "user" w' = List.filter not_marker (docs_of "user" w) /\
    (let u := List.filter not_marker (docs_of "user" w) in
     (List.filter (doc_matches admin_user_filter) u <> [] /\
      r = Ok heal_response /\
      exists oid ts,
        docs_of "audit" w'
        = List.filter not_marker (docs_of "audit" w)
          ++ [stored oid ts (Audit.model_dump (heal_audit critical))]) \/
     (List.filter (doc_matches admin_user_filter) u = [] /\
      r = Raise (ValidationError "User") /\
      docs_of "audit" w' = List.filter not_marker (docs_of "audit" w))) /\
    (forall c, c ∈ critical -> c <> "role" -> c <> "user" -> c <> "audit" ->
               docs_of c w' = List.filter not_marker (docs_of c w)) /\
    (forall c, c ∉ critical -> docs_of c w' = docs_of c w) /\
    (forall c, c ∈ critical \/ c ∈ collection_names d -> c ∈ collection_names d').
Proof.
  intros Hup. destruct (up_inv w Hup) as (cs & n & e & clk & k & ->).
  rewrite heal_run_state. unfold heal_state, seed_step. cbv beta iota zeta.
  pose proof (get_coll_ensure_critical "role" cs ltac:(in_critical)) as Hrole.
  pose proof (get_coll_ensure_critical "user" cs ltac:(in_critical)) as Huser.
  pose proof (get_coll_ensure_critical "audit" cs ltac:(in_critical)) as Haudit.
  pose proof (fun c => get_coll_ensure_critical c cs) as Hcrit.
  assert (Hother : forall c, c ∉ critical ->
            get_coll c (ensure_colls critical cs) = get_coll c cs).
  { intros c Hc. by rewrite get_coll_ensure, bool_decide_eq_false_2. }
  assert (Hl : forall c, c ∈ critical \/ c ∈ collection_names (mkDatabase cs n None) ->
            is_Some (ensure_colls critical cs !! c)).
  { intros c [Hc|Hc]; apply ensure_colls_lookup; [by left|right].
    by apply elem_of_collection_names in Hc. }
  assert (Hnr : "role" ∉ critical -> False) by (intros H; apply H; in_critical).
  assert (Hna : "audit" ∉ critical -> False) by (intros H; apply H; in_critical).
  generalize dependent (ensure_colls critical cs).
  intros m0 Hrole Huser Haudit Hcrit Hother Hl.
  cbn [docs_of db colls]. rewrite Hrole.
  destruct (take 1 (List.filter (doc_matches admin_role_filter)
                      (List.filter not_marker (get_coll "role" cs)))) as [|r0 rs] eqn:Er.
  - apply take_one_nil in Er. simpl_colls. rewrite Huser.
    destruct (take 1 (List.filter (doc_matches admin_user_filter)
                        (List.filter not_marker (get_coll "user" cs)))) as [|u0 us] eqn:Eu.
    + apply take_one_nil in Eu.
      eexists _, _, _, _. do 4 (split; [reflexivity|]).
      cbn [docs_of db colls]. simpl_colls. rewrite ?Hrole, ?Huser, ?Haudit.
      split; [right; split; [done|]; by eexists _, _|].
      split; [done|]. split; [right; done|].
      split; [intros c Hc H1 H2 H3; simpl_colls; by apply Hcrit|].
      split; [intros c Hc; rewrite !get_coll_insert_ne by (intros <-; tauto);
              by apply Hother|].
      intros c Hc. apply elem_of_collection_names. cbn [colls].
      repeat (apply lookup_insert_is_Some'; right). by apply Hl.
    + apply take_one_cons in Eu.
      eexists _, _, _, _. do 4 (split; [reflexivity|]).
      cbn [docs_of db colls]. simpl_colls. rewrite ?Hrole, ?Huser, ?Haudit.
      split; [right; split; [done|]; by eexists _, _|].
      split; [done|]. split; [left; split; [done|]; split; [done|]; by eexists _, _|].
      split; [intros c Hc H1 H2 H3; simpl_colls; by apply Hcrit|].
      split; [intros c Hc; rewrite !get_coll_insert_ne by (intros <-; tauto);
              by apply Hother|].
      intros c Hc. apply elem_of_collection_names. cbn [colls].
      repeat (apply lookup_insert_is_Some'; right). by apply Hl.
  - apply take_one_cons in Er. rewrite Huser.
    destruct (take 1 (List.filter (doc_matches admin_user_filter)
                        (List.filter not_marker (get_coll "user" cs)))) as [|u0 us] eqn:Eu.
    + apply take_one_nil in Eu.
      eexists _, _, _, _. do 4 (split; [reflexivity|]).
      cbn [docs_of db colls]. simpl_colls. rewrite ?Hrole, ?Huser, ?Haudit.
      split; [left; done|].
      split; [done|]. split; [right; done|].
      split; [intros c Hc H1 H2 H3; simpl_colls; by apply Hcrit|].
      split; [intros c Hc; by apply Hother|].
      intros c Hc. apply elem_of_collection_names. cbn [colls]. by apply Hl.
    + apply take_one_cons in Eu.
      eexists _, _, _, _. do 4 (split; [reflexivity|]).
      cbn [docs_of db colls]. simpl_colls. rewrite ?Hrole, ?Huser, ?Haudit.
      split; [left; done|].
      split; [done|]. split; [left; split; [done|]; split; [done|]; by eexists _, _|].
      split; [intros c Hc H1 H2 H3; simpl_colls; by apply Hcrit|].
      split; [intros c Hc; rewrite !get_coll_insert_ne by (intros <-; tauto);
              by apply Hother|].
      intros c Hc. apply elem_of_collection_names. cbn [colls].
      repeat (apply lookup_insert_is_Some'; right). by apply Hl.
Qed.

Lemma stored_role_is_admin oid ts :
  doc_matches admin_role_filter (stored oid ts (Role.model_dump admin_role)) = true /\
  not_marker (stored oid ts (Role.model_dump admin_role)) = true.
Proof. split; reflexivity. Qed.

Lemma stored_audit_unflagged oid ts :
  not_marker (stored oid ts (Audit.model_dump (heal_audit critical))) = true.
Proof. reflexivity. Qed.

(** The documents [heal] leaves in each collection, whatever its outcome. *)
Lemma heal_shape w :
  up w ->
  exists r w',
    heal w = (r, w') /\ up w' /\
    (forall c, c ∉ critical -> docs_of c w' = docs_of c w) /\
    (forall c, c ∈ critical ->
       exists added,
         docs_of c w' = List.filter not_marker (docs_of c w) ++ added /\
         (length added <= 1)%nat /\
         Forall (fun d => not_marker d = true) added /\
         (c <> "role" -> c <> "audit" -> added = [])).
Proof.
  intros Hup.
  destruct (heal_spec w Hup)
    as (r & w' & d & d' & Hrun & _ & Hdb' & Hdown' & Hrole & Huser & Hout & Hcrit & Hother & _).
  exists r, w'. split; [exact Hrun|]. split; [by exists d'|]. split; [exact Hother|].
  intros c Hc. cbv zeta in Hrole, Hout.
  destruct (decide (c = "role")) as [->|Hr];
    [|destruct (decide (c = "user")) as [->|Hu];
      [|destruct (decide (c = "audit")) as [->|Ha]]].
  all: try (destruct Hrole as [[_ ->]|[_ (oid & ts & ->)]]).
  all: try (destruct Hout as [(_ & _ & oid & ts & ->)|(_ & _ & ->)]).
  all: try rewrite (Hcrit c) by done.
  all: first [ eexists [_]; split; [reflexivity|]
             | exists []; rewrite app_nil_r; split; [done|] ].
  all: split; [simpl; lia|]; split; try done.
  all: repeat constructor;
    first [apply stored_role_is_admin | apply stored_audit_unflagged].
Qed.

(** C10: on a reachable store, every document of a critical collection
    that satisfies [{"_ensure": True}] before [heal] is gone after it, not
    only the marker [heal] inserted, whether the call then returns or
    fails on the administrator's address: no document of that collection
    satisfies the filter afterwards, so the collection has changed. *)
Theorem heal_deletes_flagged_documents (w : World) (c : string) (d : Doc) :
  up w ->
  c ∈ critical ->
  d ∈ docs_of c w ->
  doc_matches ensure_filter d = true ->
  exists r w',
    heal w = (r, w') /\
    (r = Ok heal_response \/ r = Raise (ValidationError "User")) /\
    (d ∉ docs_of c w') /\
    (forall x, x ∈ docs_of c w' -> doc_matches ensure_filter x = false) /\
    docs_of c w' <> docs_of c w.
Proof.
  intros Hup Hc Hd Hm.
  destruct (heal_shape w Hup) as (r & w' & Hrun & _ & _ & Hcrit).
  destruct (Hcrit c Hc) as (added & Hdocs & _ & Hadded & _).
  exists r, w'. split; [exact Hrun|]. split.
  { destruct (heal_spec w Hup) as (r0 & w0 & _ & _ & Hrun0 & _ & _ & _ & _ & _ & Hout & _).
    rewrite Hrun in Hrun0. injection Hrun0 as <- <-.
    destruct Hout as [(_ & -> & _)|(_ & -> & _)]; [by left|by right]. }
  assert (Hno : forall x, x ∈ docs_of c w' -> doc_matches ensure_filter x = false).
  { intros x Hx. rewrite Hdocs in Hx. apply elem_of_app in Hx as [Hx|Hx].
    - apply list_elem_of_In, List.filter_In in Hx as [_ Hx].
      unfold not_marker in Hx. by destruct (doc_matches ensure_filter x).
    - rewrite Forall_forall in Hadded. specialize (Hadded x Hx).
      unfold not_marker in Hadded. by destruct (doc_matches ensure_filter x). }
  assert (Hnot : d ∉ docs_of c w').
  { intros Hin. apply Hno in Hin. congruence. }
  split; [exact Hnot|]. split; [exact Hno|].
  intros Heq. apply Hnot. by rewrite Heq.
Qed.

Lemma heal_deletes_flagged_documents_witness :
  up flagged_world /\
  "product" ∈ critical /\
  flagged_product ∈ docs_of "product" flagged_world /\
  doc_matches ensure_filter flagged_product = true /\
  exists r w',
    heal flagged_world = (r, w') /\
    (flagged_product ∉ docs_of "product" w').
Proof.
  assert (up flagged_world) as Hup by (eexists; split; reflexivity).
  assert ("product" ∈ critical) as Hc by in_critical.
  assert (flagged_product ∈ docs_of "product" flagged_world) as Hd
      by (apply list_elem_of_In; left; reflexivity).
  split; [exact Hup|]. split; [exact Hc|]. split; [exact Hd|].
  split; [reflexivity|].
  destruct (heal_deletes_flagged_documents flagged_world "product" flagged_product
              Hup Hc Hd eq_refl)
    as (r & w' & Hrun & _ & Hnot & _).
  exists r, w'. split; [exact Hrun|exact Hnot].
Defined.

(** ** The administrator is never seeded *)

Lemma heal_no_admin_user w :
  up w ->
  List.filter (doc_matches admin_user_filter)
    (List.filter not_marker (docs_of "user" w)) = [] ->
  exists w',
    heal w = (Raise (ValidationError "User"), w') /\ up w' /\
    docs_of "user" w' = List.filter not_marker (docs_of "user" w) /\
    docs_of "audit" w' = List.filter not_marker (docs_of "audit" w) /\
    List.filter (doc_matches admin_role_filter) (docs_of "role" w') <> [].
Proof.
  intros Hup Hnone.
  destruct (heal_spec w Hup)
    as (r & w' & d & d' & Hrun & _ & Hdb' & Hdown' & Hrole & Huser & Hout & _).
  cbv zeta in Hrole, Hout.
  destruct Hout as [(Hsome & _)|(_ & -> & Haudit)]; [done|].
  exists w'. split; [exact Hrun|]. split; [by exists d'|].
  split; [exact Huser|]. split; [exact Haudit|].
  destruct Hrole as [[Hr ->]|[_ (oid & ts & ->)]]; [exact Hr|].
  rewrite List.filter_app. cbn [List.filter].
  rewrite (proj1 (stored_role_is_admin oid ts)).
  intros H. apply app_eq_nil in H as [_ H]. discriminate H.
Qed.

(** C1, on the code: when no user document with email [admin@local] is
    stored (flagged documents aside), as on a fresh store, every call of
    [heal] in a sequence ends in the [ValidationError] raised where the
    administrator [User] is built, since [admin@local] is not an
    [EmailStr]; after any number of calls the store holds an admin role
    but no admin user, and no audit record has been written. *)
Theorem heal_never_seeds_admin_user (w : World) (n : nat) :
  up w ->
  List.filter (doc_matches admin_user_filter)
    (List.filter not_marker (docs_of "user" w)) = [] ->
  (heal (heal_calls n w)).1 = Raise (ValidationError "User") /\
  docs_of "user" (heal_calls (S n) w) = List.filter not_marker (docs_of "user" w) /\
  count_matching admin_user_filter (docs_of "user" (heal_calls (S n) w)) = 0%nat /\
  docs_of "audit" (heal_calls (S n) w) = List.filter not_marker (docs_of "audit" w) /\
  (1 <= count_matching admin_role_filter (docs_of "role" (heal_calls (S n) w)))%nat.
Proof.
  revert w. induction n as [|n IH]; intros w Hup Hnone.
  - destruct (heal_no_admin_user w Hup Hnone) as (w' & Hrun & _ & Hu & Ha & Hr).
    cbn [heal_calls]. rewrite Hrun. cbn [fst snd].
    split; [done|]. split; [exact Hu|]. unfold count_matching.
    rewrite Hu, Hnone. split; [done|]. split; [exact Ha|].
    destruct (List.filter _ (docs_of "role" w')); [done|simpl; lia].
  - destruct (heal_no_admin_user w Hup Hnone) as (w' & Hrun & Hup' & Hu & Ha & _).
    assert (Hnone' : List.filter (doc_matches admin_user_filter)
                       (List.filter not_marker (docs_of "user" w')) = []).
    { by rewrite Hu, filter_idem. }
    destruct (IH w' Hup' Hnone') as (H1 & H2 & H3 & H4 & H5).
    change (heal_calls (S n) w) with (heal_calls n (heal w).2).
    change (heal_calls (S (S n)) w) with (heal_calls (S n) (heal w).2).
    rewrite Hrun. cbn [snd].
    split; [exact H1|]. split; [by rewrite H2, Hu, filter_idem|].
    split; [exact H3|]. split; [by rewrite H4, Ha, filter_idem|exact H5].
Qed.

Lemma heal_never_seeds_admin_user_witness :
  up fresh_world /\
  List.filter (doc_matches admin_user_filter)
    (List.filter not_marker (docs_of "user" fresh_world)) = [] /\
  (heal (heal_calls 0 fresh_world)).1 = Raise (ValidationError "User") /\
  (heal (heal_calls 1 fresh_world)).1 = Raise (ValidationError "User") /\
  count_matching admin_user_filter (docs_of "user" (heal_calls 2 fresh_world)) = 0%nat /\
  docs_of "audit" (heal_calls 2 fresh_world)
  = List.filter not_marker (docs_of "audit" fresh_world).
Proof.
  assert (up fresh_world) as Hup by (eexists; split; reflexivity).
  split; [exact Hup|]. split; [reflexivity|].
  destruct (heal_never_seeds_admin_user fresh_world 0 Hup eq_refl) as (H0 & _).
  destruct (heal_never_seeds_admin_user fresh_world 1 Hup eq_refl)
    as (H1 & _ & H2 & H3 & _).
  split; [exact H0|]. split; [exact H1|]. split; [exact H2|exact H3].
Defined.

(** ** Further properties of self-heal *)

(** X6: on a reachable store a call of [heal], whether it returns or ends
    in the [ValidationError], leaves each of the ten critical collections
    in existence (listed among the collection names), together with every
    collection that existed before; it returns, with [{"status": "ok",
    "ensured": [...]}] naming the ten collections in order, exactly when a
    user with email [admin@local] is stored (flagged documents aside). *)
Theorem heal_creates_critical_collections (w : World) (d : Database) :
  db w = Some d -> down d = None ->
  exists r w' d',
    heal w = (r, w') /\
    db w' = Some d' /\ down d' = None /\
    (forall c, c ∈ critical -> c ∈ collection_names d') /\
    (forall c, c ∈ collection_names d -> c ∈ collection_names d') /\
    (r = Ok heal_response \/ r = Raise (ValidationError "User")) /\
    (r = Ok heal_response <->
     List.filter (doc_matches admin_user_filter)
       (List.filter not_marker (docs_of "user" w)) <> []).
Proof.
  intros Hdb Hdown. assert (up w) as Hup by (by exists d).
  destruct (heal_spec w Hup)
    as (r & w' & d0 & d' & Hrun & Hdb0 & Hdb' & Hdown' & _ & _ & Hout & _ & _ & Hnames).
  rewrite Hdb in Hdb0. injection Hdb0 as <-.
  exists r, w', d'. split; [exact Hrun|]. split; [exact Hdb'|]. split; [exact Hdown'|].
  split; [intros c Hc; apply Hnames; by left|].
  split; [intros c Hc; apply Hnames; by right|].
  cbv zeta in Hout. destruct Hout as [(Hsome & -> & _)|(Hnone & -> & _)].
  - split; [by left|]. done.
  - split; [by right|]. split; [discriminate|]. intros H. by destruct H.
Qed.

Lemma heal_creates_critical_collections_witness :
  db fresh_world = Some fresh_db /\ down fresh_db = None /\
  collection_names fresh_db = [] /\
  exists r w' d',
    heal fresh_world = (r, w') /\
    db w' = Some d' /\
    "video" ∈ collection_names d'.
Proof.
  split; [reflexivity|]. split; [reflexivity|]. split; [reflexivity|].
  destruct (heal_creates_critical_collections fresh_world fresh_db eq_refl eq_refl)
    as (r & w' & d' & Hrun & Hdb & _ & Hall & _).
  exists r, w', d'. split; [exact Hrun|]. split; [exact Hdb|].
  apply Hall. apply list_elem_of_In. cbn. tauto.
Defined.

(** X7: on a reachable store that holds a user with email [admin@local]
    (flagged documents aside), [heal] returns and has written, as the last
    document of the audit collection, a record with action ["self_heal"],
    actor ["system"], severity ["info"] and the ten critical names as the
    [ensured] detail. *)
Theorem heal_writes_audit_record (w : World) :
  up w ->
  List.filter (doc_matches admin_user_filter)
    (List.filter not_marker (docs_of "user" w)) <> [] ->
  exists w' a,
    heal w = (Ok heal_response, w') /\
    docs_of "audit" w' = List.filter not_marker (docs_of "audit" w) ++ [a] /\
    doc_get "action" a = Some (VStr "self_heal") /\
    doc_get "actor" a = Some (VStr "system") /\
    doc_get "severity" a = Some (VStr "info") /\
    doc_get "details" a = Some (VDoc [("ensured", VList (VStr <$> critical))]).
Proof.
  intros Hup Hsome.
  destruct (heal_spec w Hup)
    as (r & w' & d0 & d' & Hrun & _ & _ & _ & _ & _ & Hout & _).
  cbv zeta in Hout. destruct Hout as [(_ & -> & oid & ts & Haudit)|(Hnone & _)]; [|done].
  eexists w', _. split; [exact Hrun|]. split; [exact Haudit|].
  repeat split; reflexivity.
Qed.

Lemma heal_writes_audit_record_witness :
  up admin_settings_world /\
  List.filter (doc_matches admin_user_filter)
    (List.filter not_marker (docs_of "user" admin_settings_world)) <> [] /\
  exists w' a,
    heal admin_settings_world = (Ok heal_response, w') /\
    last (docs_of "audit" w') = Some a /\
    doc_get "action" a = Some (VStr "self_heal").
Proof.
  assert (up admin_settings_world) as Hup by (eexists; split; reflexivity).
  assert (List.filter (doc_matches admin_user_filter)
            (List.filter not_marker (docs_of "user" admin_settings_world)) <> [])
    as Hsome by (vm_compute; discriminate).
  split; [exact Hup|]. split; [exact Hsome|].
  destruct (heal_writes_audit_record admin_settings_world Hup Hsome)
    as (w' & a & Hrun & Hdocs & Hact & _).
  exists w', a. split; [exact Hrun|]. rewrite Hdocs, last_snoc. by split.
Defined.

(** X8: when the role collection of a reachable store holds no role named
    [admin] (flagged documents aside), a call of [heal] appends one with
    the wildcard permission, also when the call then fails on the
    administrator's address; when it holds one, no role is added. *)
Theorem heal_seeds_admin_role (w : World) :
  up w ->
  exists r w',
    heal w = (r, w') /\
    (List.filter (doc_matches admin_role_filter)
       (List.filter not_marker (docs_of "role" w)) = [] ->
     exists role,
       docs_of "role" w' = List.filter not_marker (docs_of "role" w) ++ [role] /\
       doc_get "name" role = Some (VStr "admin") /\
       doc_get "permissions" role = Some (VList [VStr "*"])) /\
    (List.filter (doc_matches admin_role_filter)
       (List.filter not_marker (docs_of "role" w)) <> [] ->
     docs_of "role" w' = List.filter not_marker (docs_of "role" w)).
Proof.
  intros Hup.
  destruct (heal_spec w Hup) as (r & w' & d0 & d' & Hrun & _ & _ & _ & Hrole & _).
  exists r, w'. split; [exact Hrun|]. cbv zeta in Hrole.
  destruct Hrole as [[Hsome Hdocs]|[Hnone (oid & ts & Hdocs)]].
  - split; [done|]. by intros _.
  - split; [|done]. intros _. eexists. split; [exact Hdocs|]. split; reflexivity.
Qed.

Lemma heal_seeds_admin_role_witness :
  up fresh_world /\
  exists r w' role,
    heal fresh_world = (r, w') /\
    docs_of "role" w' = [role] /\
    doc_get "permissions" role = Some (VList [VStr "*"]).
Proof.
  assert (up fresh_world) as Hup by (eexists; split; reflexivity).
  split; [exact Hup|].
  destruct (heal_seeds_admin_role fresh_world Hup) as (r & w' & Hrun & Hseed & _).
  destruct (Hseed eq_refl) as (role & Hdocs & _ & Hperm).
  exists r, w', role. split; [exact Hrun|]. split; [exact Hdocs|exact Hperm].
Defined.

(** X9: the frame of a call of [heal] on a reachable store, whatever its
    outcome: a collection outside the ten critical ones is untouched; a
    critical one keeps its unflagged documents in their order, followed by
    at most one new document, and by none unless it is the role or the
    audit collection. *)
Theorem heal_keeps_unflagged_documents (w : World) :
  up w ->
  exists r w',
    heal w = (r, w') /\
    (forall c, c ∉ critical -> docs_of c w' = docs_of c w) /\
    (forall c, c ∈ critical ->
       exists added,
         docs_of c w' = List.filter not_marker (docs_of c w) ++ added /\
         (length added <= 1)%nat /\
         (c <> "role" -> c <> "audit" -> added = [])).
Proof.
  intros Hup. destruct (heal_shape w Hup) as (r & w' & Hrun & _ & Hother & Hcrit).
  exists r, w'. split; [exact Hrun|]. split; [exact Hother|].
  intros c Hc. destruct (Hcrit c Hc) as (added & Hdocs & Hlen & _ & Hnone).
  by exists added.
Qed.

Lemma heal_keeps_unflagged_documents_witness :
  up ann_world /\
  exists r w',
    heal ann_world = (r, w') /\
    docs_of "user" w' = [ann_doc].
Proof.
  assert (up ann_world) as Hup by (eexists; split; reflexivity).
  split; [exact Hup|].
  destruct (heal_keeps_unflagged_documents ann_world Hup) as (r & w' & Hrun & _ & Hcrit).
  destruct (Hcrit "user" ltac:(in_critical)) as (added & Hdocs & _ & Hnone).
  exists r, w'. split; [exact Hrun|].
  rewrite Hdocs, (Hnone ltac:(discriminate) ltac:(discriminate)). reflexivity.
Defined.

(** X11: two calls of [heal] in sequence on a reachable store have the
    same outcome, and the second leaves every collection except the audit
    collection exactly as the first left it; the audit collection gains one
    record if the calls return and none if they fail. *)
Theorem heal_twice_changes_only_audit (w : World) :
  up w ->
  exists r w1 w2,
    heal w = (r, w1) /\
    heal w1 = (r, w2) /\
    (forall c, c <> "audit" -> docs_of c w2 = docs_of c w1) /\
    length (docs_of "audit" w2)
    = (length (docs_of "audit" w1)
       + match r with Ok _ => 1 | Raise _ => 0 end)%nat.
Proof.
  intros Hup.
  destruct (heal_spec w Hup)
    as (r & w1 & d0 & d1 & Hrun1 & _ & Hdb1 & Hdown1 & Hrole1 & Huser1 & Hout1 & _).
  assert (up w1) as Hup1 by (by exists d1).
  destruct (heal_shape w Hup) as (r' & w1' & Hrun1' & _ & _ & Hclean).
  rewrite Hrun1 in Hrun1'. injection Hrun1' as <- <-.
  assert (Hc1 : forall c, c ∈ critical ->
                  List.filter not_marker (docs_of c w1) = docs_of c w1).
  { intros c Hc. destruct (Hclean c Hc) as (added & -> & _ & Hadd & _).
    apply filter_all_true, Forall_app. split; [apply Forall_filter_true|exact Hadd]. }
  destruct (heal_spec w1 Hup1)
    as (r2 & w2 & d1' & d2 & Hrun2 & _ & _ & _ & Hrole2 & Huser2 & Hout2 & Hcrit2 & Hother2 & _).
  cbv zeta in Hrole1, Hout1, Hrole2, Hout2.
  pose proof (Hc1 "role" ltac:(in_critical)) as Hcr.
  pose proof (Hc1 "user" ltac:(in_critical)) as Hcu.
  pose proof (Hc1 "audit" ltac:(in_critical)) as Hca.
  rewrite Hcr in Hrole2. rewrite Hcu in Huser2. rewrite Hcu, Hca in Hout2.
  assert (Hr1 : List.filter (doc_matches admin_role_filter) (docs_of "role" w1) <> []).
  { destruct Hrole1 as [[Hr ->]|[_ (oid & ts & ->)]]; [exact Hr|].
    rewrite List.filter_app. cbn [List.filter].
    rewrite (proj1 (stored_role_is_admin oid ts)).
    intros H. apply app_eq_nil in H as [_ H]. discriminate H. }
  destruct Hrole2 as [[_ Hrole2]|[Hnone _]]; [|done].
  rewrite Huser1 in Hout2.
  assert (r2 = r /\ length (docs_of "audit" w2)
                    = (length (docs_of "audit" w1)
                       + match r with Ok _ => 1 | Raise _ => 0 end)%nat) as [-> Hlen].
  { destruct Hout1 as [(Hs & -> & _)|(Hn & -> & _)];
      destruct Hout2 as [(Hs2 & -> & oid & ts & ->)|(Hn2 & -> & ->)]; try done.
    all: split; [done|]; rewrite ?length_app; simpl; lia. }
  exists r, w1, w2. split; [exact Hrun1|]. split; [exact Hrun2|]. split; [|exact Hlen].
  intros c Hc.
  destruct (decide (c = "role")) as [->|Hnr]; [exact Hrole2|].
  destruct (decide (c = "user")) as [->|Hnu]; [exact Huser2|].
  destruct (decide (c ∈ critical)) as [Hin|Hout]; [|by apply Hother2].
  rewrite Hcrit2 by done. by apply Hc1.
Qed.

Lemma heal_twice_changes_only_audit_witness :
  up flagged_world /\
  exists r w1 w2,
    heal flagged_world = (r, w1) /\
    heal w1 = (r, w2) /\
    docs_of "product" w2 = docs_of "product" w1.
Proof.
  assert (up flagged_world) as Hup by (eexists; split; reflexivity).
  split; [exact Hup|].
  destruct (heal_twice_changes_only_audit flagged_world Hup)
    as (r & w1 & w2 & H1 & H2 & Hsame & _).
  exists r, w1, w2. split; [exact H1|]. split; [exact H2|].
  apply Hsame. discriminate.
Defined.

(** X22: after a call of [heal] on a reachable store, whether it returned
    or failed on the administrator's address, [health] reports [database]
    as ["ok"] and its [collections] list holds each of the ten critical
    names. *)
Theorem health_after_heal (isoformat : Z -> string) (w : World) :
  up w ->
  exists r w1 status w2 names,
    heal w = (r, w1) /\
    health isoformat w1 = (Ok status, w2) /\
    doc_get "database" status = Some (VStr "ok") /\
    doc_get "collections" status = Some (VList (VStr <$> names)) /\
    (forall c, c ∈ critical -> c ∈ names).
Proof.
  intros Hup.
  destruct (heal_spec w Hup)
    as (r & w1 & d0 & d1 & Hrun & _ & Hdb1 & Hdown1 & _ & _ & _ & _ & _ & Hnames).
  destruct w1 as [o e1 clk1 k1], d1 as [cs1 n1 dn1]. simpl in Hdb1, Hdown1. subst.
  eexists r, _, _, _, (collection_names (mkDatabase cs1 n1 None)).
  split; [exact Hrun|]. split; [cbn; reflexivity|].
  split; [reflexivity|]. split; [reflexivity|].
  intros c Hc. apply Hnames. by left.
Qed.

Lemma health_after_heal_witness :
  up fresh_world /\
  exists r w1 status w2 names,
    heal fresh_world = (r, w1) /\
    health pretty w1 = (Ok status, w2) /\
    doc_get "collections" status = Some (VList (VStr <$> names)) /\
    "contactmessage" ∈ names.
Proof.
  assert (up fresh_world) as Hup by (eexists; split; reflexivity).
  split; [exact Hup|].
  destruct (health_after_heal pretty fresh_world Hup)
    as (r & w1 & status & w2 & names & H1 & H2 & _ & Hcols & Hall).
  exists r, w1, status, w2, names. split; [exact H1|]. split; [exact H2|].
  split; [exact Hcols|]. apply Hall. apply list_elem_of_In. cbn. tauto.
Defined.
